(** * Model of the project core of [scripts/model_editor.py]

    The editor keeps its project state in Python dicts loaded from JSON
    ([manifest.json] and one JSON file per layer under [metadata/]).  The
    development models JSON values, Python's dict operations on them, the
    editor's state ([MainWindow]'s attributes) and the methods that act on
    the manifest, the metadata files and the preview.  Python floats are
    IEEE-754 binary64 numbers, modelled with [SpecFloat] at [prec = 53],
    [emax = 1024].  A Python exception that propagates out of a method is an
    explicit result ([None] or [Raised]). *)

From Stdlib Require Import List String Ascii ZArith Bool Lia Sorting.Sorted Sorting.Permutation.
From Stdlib Require Import Floats.SpecFloat.
Import ListNotations.
Open Scope string_scope.
Open Scope Z_scope.

(** ** JSON values, as [json.load] returns them *)

#[local] Set Warnings "-register-all".

Inductive json : Type :=
| JNull
| JBool (b : bool)
| JInt (z : Z)
| JFloat (f : spec_float)
| JStr (s : string)
| JArr (l : list json)
| JObj (d : list (string * json)).

(** A Python dict with string keys, in insertion order. *)
Definition dict := list (string * json).

(** [d.get(k)] / [d[k]] *)
Fixpoint dget (d : dict) (k : string) : option json :=
  match d with
  | [] => None
  | (k', v) :: d' => if String.eqb k k' then Some v else dget d' k
  end.

(** [d[k] = v]: an existing key keeps its position, a new key goes last. *)
Fixpoint dset (d : dict) (k : string) (v : json) : dict :=
  match d with
  | [] => [(k, v)]
  | (k', v') :: d' =>
      if String.eqb k k' then (k', v) :: d' else (k', v') :: dset d' k v
  end.

(** [del d[k]] / [d.pop(k, None)]: the entry for [k] goes (a dict has at
    most one). *)
Definition ddel (d : dict) (k : string) : dict :=
  filter (fun kv => negb (String.eqb k (fst kv))) d.

(** [k in d] *)
Definition dmem (d : dict) (k : string) : bool :=
  match dget d k with Some _ => true | None => false end.

(** [d.get(k, default)] *)
Definition dget_or (d : dict) (k : string) (default : json) : json :=
  match dget d k with Some v => v | None => default end.

(** [d.setdefault(k, v)] on the dict itself *)
Definition dsetdefault (d : dict) (k : string) (v : json) : dict :=
  if dmem d k then d else dset d k v.

(** [x.get(k, default)] on a JSON value: [AttributeError] unless a dict. *)
Definition py_get (x : json) (k : string) (default : json) : option json :=
  match x with JObj d => Some (dget_or d k default) | _ => None end.

(** [x[k]] with a string key: [KeyError] or [TypeError] give [None]. *)
Definition py_getitem (x : json) (k : string) : option json :=
  match x with JObj d => dget d k | _ => None end.

(** Python truthiness of a JSON value. *)
Definition py_truthy (x : json) : bool :=
  match x with
  | JNull => false
  | JBool b => b
  | JInt z => negb (Z.eqb z 0)
  | JFloat (S754_zero _) => false
  | JFloat _ => true
  | JStr s => negb (String.eqb s "")
  | JArr l => match l with [] => false | _ => true end
  | JObj d => match d with [] => false | _ => true end
  end.

(** A value Python's arithmetic and Qt's numeric setters accept. *)
Definition py_num (x : json) : bool :=
  match x with JBool _ | JInt _ | JFloat _ => true | _ => false end.

(** [s in x] for a string [s] (substring test on strings, key test on dicts,
    membership on lists); [TypeError] on the other values. *)
Fixpoint is_substring (s t : string) : bool :=
  if String.prefix s t then true
  else match t with EmptyString => false | String _ t' => is_substring s t' end.

Definition json_is_str (s : string) (x : json) : bool :=
  match x with JStr t => String.eqb s t | _ => false end.

Definition py_in (s : string) (x : json) : option bool :=
  match x with
  | JObj d => Some (dmem d s)
  | JArr l => Some (existsb (json_is_str s) l)
  | JStr t => Some (is_substring s t)
  | _ => None
  end.

(** [x[i]] with an int index. *)
Definition py_index (x : json) (i : nat) : option json :=
  match x with
  | JArr l => nth_error l i
  | JStr s => option_map (fun c => JStr (String c EmptyString)) (String.get i s)
  | _ => None
  end.

(** [for v in x] *)
Definition py_iter (x : json) : option (list json) :=
  match x with
  | JArr l => Some l
  | JObj d => Some (map (fun kv => JStr (fst kv)) d)
  | JStr s => Some (map (fun c => JStr (String c EmptyString)) (list_ascii_of_string s))
  | _ => None
  end.

(** ** Environment and editor state *)

(** What the editor reads from the file system and never writes during the
    modelled operations: which files exist under [layers/] and the pixel
    sizes of these images as Qt ([QPixmap]) and Pillow ([Image.open]) see
    them ([None]: Pillow cannot open the file). *)
Record env : Type := {
  layer_exists : string -> bool;
  qpixmap_size : string -> Z * Z;
  pil_size : string -> option (Z * Z);
  write_ok : bool
}.

(** A file of [metadata/]: its name and its parsed content ([None] when the
    text is not valid JSON). *)
Definition meta_dir := list (string * option json).

Fixpoint meta_lookup (md : meta_dir) (f : string) : option (option json) :=
  match md with
  | [] => None
  | (f', c) :: md' => if String.eqb f f' then Some c else meta_lookup md' f
  end.

(** Write [c] to [metadata/f] (overwrite, or create it last). *)
Fixpoint meta_write (md : meta_dir) (f : string) (c : option json) : meta_dir :=
  match md with
  | [] => [(f, c)]
  | (f', c') :: md' =>
      if String.eqb f f' then (f', c) :: md' else (f', c') :: meta_write md' f c
  end.

(** [MainWindow]'s attributes the core uses. *)
Record state : Type := {
  project_path : option string;
  manifest : json;              (** [self.manifest] *)
  is_dirty : bool;              (** [self.is_dirty] *)
  metadata : meta_dir;          (** the files of [metadata/] *)
  manifest_file : option json   (** the content of [manifest.json] *)
}.

(** [self.manifest["layers"]], as a dict. *)
Definition layers_of (m : json) : option dict :=
  match m with
  | JObj d => match dget d "layers" with Some (JObj l) => Some l | _ => None end
  | _ => None
  end.

(** [self.manifest["layers"] = l] after an in-place mutation. *)
Definition with_layers (m : json) (l : dict) : json :=
  match m with
  | JObj d => JObj (dset d "layers" (JObj l))
  | _ => m
  end.

Definition set_manifest (st : state) (m : json) : state :=
  {| project_path := project_path st; manifest := m; is_dirty := is_dirty st;
     metadata := metadata st; manifest_file := manifest_file st |}.

Definition set_layers (st : state) (l : dict) : state :=
  set_manifest st (with_layers (manifest st) l).

(** [mark_dirty] *)
Definition mark_dirty (st : state) : state :=
  {| project_path := project_path st; manifest := manifest st; is_dirty := true;
     metadata := metadata st; manifest_file := manifest_file st |}.

Notation "x <- c1 ;; c2" := (match c1 with Some x => c2 | None => None end)
  (at level 61, c1 at next level, right associativity).

(** ** Python numbers used by the preview and the metadata code *)

(** [float(w)] for a Python int: the nearest binary64 value. *)
Definition float_of_int (w : Z) : spec_float := binary_normalize 53 1024 w 0 false.

(** [a * b] on two Python floats. *)
Definition fmul (a b : spec_float) : spec_float := SFmul 53 1024 a b.

(** [int(f)] for a Python float: truncation toward zero; [OverflowError] on
    infinities and [ValueError] on NaN. *)
Definition int_of_float (f : spec_float) : option Z :=
  match f with
  | S754_zero _ => Some 0
  | S754_infinity _ | S754_nan => None
  | S754_finite sgn m e =>
      let a := if 0 <=? e then Z.pos m * 2 ^ e else Z.pos m / 2 ^ (- e) in
      Some (if sgn then - a else a)
  end.

(** [int(t)] for a str [t] (ASCII): surrounding whitespace, an optional sign,
    decimal digits with single underscores between digits. *)
Definition is_py_space (c : Ascii.ascii) : bool :=
  match Ascii.nat_of_ascii c with 9 | 10 | 11 | 12 | 13 | 32 => true | _ => false end%nat.

Fixpoint drop_spaces (cs : list Ascii.ascii) : list Ascii.ascii :=
  match cs with
  | c :: cs' => if is_py_space c then drop_spaces cs' else cs
  | [] => []
  end.

Definition digit_value (c : Ascii.ascii) : option Z :=
  let n := Ascii.nat_of_ascii c in
  if (48 <=? n)%nat && (n <=? 57)%nat then Some (Z.of_nat n - 48) else None.

(** digits after at least one digit; [acc] is the value so far *)
Fixpoint parse_digits (cs : list Ascii.ascii) (acc : Z) : option Z :=
  match cs with
  | [] => Some acc
  | c :: cs' =>
      match digit_value c with
      | Some v => parse_digits cs' (10 * acc + v)
      | None =>
          if Ascii.eqb c "_"%char then
            match cs' with
            | c2 :: cs'' =>
                match digit_value c2 with
                | Some v => parse_digits cs'' (10 * acc + v)
                | None => None
                end
            | [] => None
            end
          else None
      end
  end.

Definition parse_unsigned (cs : list Ascii.ascii) : option Z :=
  match cs with
  | c :: cs' => match digit_value c with Some v => parse_digits cs' v | None => None end
  | [] => None
  end.

Definition int_of_str (t : string) : option Z :=
  let cs := rev (drop_spaces (rev (drop_spaces (list_ascii_of_string t)))) in
  match cs with
  | c :: cs' =>
      if Ascii.eqb c "-"%char then option_map Z.opp (parse_unsigned cs')
      else if Ascii.eqb c "+"%char then parse_unsigned cs'
      else parse_unsigned cs
  | [] => None
  end.

Fixpoint str_repeat (n : nat) (t : string) : string :=
  match n with O => EmptyString | S n' => t ++ str_repeat n' t end.

(** [int(w * scale)] for a Python int [w] and a JSON value [scale]. *)
Definition int_mul (w : Z) (scale : json) : option Z :=
  match scale with
  | JInt z => Some (w * z)
  | JBool b => Some (if b then w else 0)
  | JFloat f => int_of_float (fmul (float_of_int w) f)
  | JStr t => int_of_str (str_repeat (Z.to_nat w) t)
  | _ => None
  end.

(** ** Preview compositor: [update_preview] and [_render_bound_layers_for] *)

(** A [QGraphicsPixmapItem] placed by the preview: the image, the two
    summands of [final_x] and [final_y] ([base_offset[i]] and the metadata
    coordinate; the sum is what [setPos] receives), scale, opacity and z. *)
Record drawop : Type := {
  op_img : string;
  op_x : json * json;
  op_y : json * json;
  op_scale : json;
  op_opacity : json;
  op_z : Z
}.

(** [load_metadata_json_for_layer] (with [load_metadata_content_for_layer]):
    [Some None] is Python's [None]; the outer [None] an exception. *)
Definition load_metadata_json_for_layer (st : state) (name : string)
  : option (option json) :=
  if String.eqb name "" then Some None else
  match project_path st with
  | None => Some None
  | Some _ =>
      l <- layers_of (manifest st) ;;
      r <- py_get (dget_or l name (JObj [])) "metadata" JNull ;;
      if negb (py_truthy r) then Some None else
      match r with
      | JStr f =>
          match meta_lookup (metadata st) f with
          | None => Some None            (* [metadata_path.exists()] fails *)
          | Some c => Some c             (* [json.loads]; [None] on [JSONDecodeError] *)
          end
      | _ => None                        (* [TypeError] from the path join *)
      end
  end.

Definition meta_defaults : json * json * json * json :=
  (JInt 0, JInt 0, JFloat (S754_finite false 1 0), JFloat (S754_finite false 1 0)).

(** [meta_x, meta_y, meta_scale, meta_opacity = 0, 0, 1.0, 1.0] and the
    [if metadata and "top_layer" in metadata:] block. *)
Definition meta_params (md : option json) : option (json * json * json * json) :=
  match md with
  | None => Some meta_defaults
  | Some j =>
      if negb (py_truthy j) then Some meta_defaults else
      b <- py_in "top_layer" j ;;
      if negb b then Some meta_defaults else
      meta <- py_getitem j "top_layer" ;;
      x <- py_get meta "x" (JInt 0) ;;
      y <- py_get meta "y" (JInt 0) ;;
      s <- py_get meta "scale" (JFloat (S754_finite false 1 0)) ;;
      o <- py_get meta "opacity" (JFloat (S754_finite false 1 0)) ;;
      Some (x, y, s, o)
  end.

(** [base_offset[i] + meta]: Python's [+] followed by [setPos] succeeds
    exactly on two numbers. *)
Definition final_coord (base_offset : json) (i : nat) (m : json) : option (json * json) :=
  b <- py_index base_offset i ;;
  if py_num b && py_num m then Some (b, m) else None.

(** One bound layer's item ([_render_bound_layers_for]): its scale goes to
    [setScale] and its opacity to [setOpacity], which need numbers. *)
Definition place (st : state) (name : string) (base_offset : json) (z : Z)
  : option drawop :=
  md <- load_metadata_json_for_layer st name ;;
  p <- meta_params md ;;
  let '(mx, my, ms, mo) := p in
  fx <- final_coord base_offset 0 mx ;;
  fy <- final_coord base_offset 1 my ;;
  if py_num ms && py_num mo then
    Some {| op_img := name; op_x := fx; op_y := fy; op_scale := ms;
            op_opacity := mo; op_z := z |}
  else None.

(** [QtCore.QSize(w, h)] takes two C ints: [OverflowError] outside them. *)
Definition c_int (v : Z) : bool := (- 2 ^ 31 <=? v) && (v <=? 2 ^ 31 - 1).

(** The decimal digits of a str; [int(t)] raises [ValueError] on a str with
    more than 4300 of them ([sys.int_info.default_max_str_digits]). *)
Fixpoint count_digits (cs : list Ascii.ascii) : nat :=
  match cs with
  | [] => O
  | c :: cs' =>
      match digit_value c with
      | Some _ => S (count_digits cs')
      | None => count_digits cs'
      end
  end.

Definition max_str_digits : nat := 4300.

(** One dimension of [QtCore.QSize(int(w * meta_scale), ...)]. *)
Definition qsize_dim (w : Z) (scale : json) : option Z :=
  v <- (match scale with
        | JStr t =>
            if (count_digits (list_ascii_of_string (str_repeat (Z.to_nat w) t))
                  <=? max_str_digits)%nat
            then int_mul w scale else None
        | _ => int_mul w scale
        end) ;;
  if c_int v then Some v else None.

(** The main top layer's item ([update_preview], step 4): its pixmap is
    scaled to [QSize(int(width * meta_scale), int(height * meta_scale))]
    and its opacity goes to [setOpacity]. *)
Definition place_top (ev : env) (st : state) (name : string) (base_offset : json) (z : Z)
  : option drawop :=
  md <- load_metadata_json_for_layer st name ;;
  p <- meta_params md ;;
  let '(mx, my, ms, mo) := p in
  fx <- final_coord base_offset 0 mx ;;
  fy <- final_coord base_offset 1 my ;;
  let '(w, h) := qpixmap_size ev name in
  _sw <- qsize_dim w ms ;;
  _sh <- qsize_dim h ms ;;
  if py_num mo then
    Some {| op_img := name; op_x := fx; op_y := fy; op_scale := ms;
            op_opacity := mo; op_z := z |}
  else None.

(** The [for bound_name in bound_layer_names] loop, from [current_z]. *)
Fixpoint render_bound (ev : env) (st : state) (base_offset : json)
  (names : list json) (current_z : Z) : option (list drawop * Z) :=
  match names with
  | [] => Some ([], current_z)
  | JStr n :: rest =>
      match project_path st with
      | None => None                     (* [TypeError] from [None / "layers"] *)
      | Some _ =>
          if layer_exists ev n then
            op <- place st n base_offset current_z ;;
            r <- render_bound ev st base_offset rest (current_z + 1) ;;
            Some (op :: fst r, snd r)
          else render_bound ev st base_offset rest current_z
      end
  | _ :: _ => None                       (* [TypeError] from the path join *)
  end.

(** [_render_bound_layers_for(source, base_offset, start_z)] *)
Definition render_bound_layers_for (ev : env) (st : state) (source : string)
  (base_offset : json) (start_z : Z) : option (list drawop * Z) :=
  l <- layers_of (manifest st) ;;
  b <- py_get (dget_or l source (JObj [])) "bindings" (JArr []) ;;
  names <- py_iter b ;;
  render_bound ev st base_offset names start_z.

(** [if name and name != "<None>"] *)
Definition selected (name : string) : bool :=
  negb (String.eqb name "") && negb (String.eqb name "<None>").

(** [update_preview] with the two combo boxes' texts [base_name] and
    [top_name]: the items it shows, in the order it sets them up. A
    selected name is joined to [self.project_path / "layers"], a
    [TypeError] when no project is open. *)
Definition update_preview (ev : env) (st : state) (base_name top_name : string)
  : option (list drawop) :=
  l <- layers_of (manifest st) ;;
  base_offset <- py_get (dget_or l base_name (JObj [])) "offset" (JArr [JInt 0; JInt 0]) ;;
  let z_index := 0 in
  base_ops <-
    (if selected base_name then
       match project_path st with
       | None => None
       | Some _ =>
           if layer_exists ev base_name then
             Some [{| op_img := base_name; op_x := (JInt 0, JInt 0);
                      op_y := (JInt 0, JInt 0);
                      op_scale := JFloat (S754_finite false 1 0);
                      op_opacity := JFloat (S754_finite false 1 0); op_z := z_index |}]
           else Some []
       end
     else Some []) ;;
  let z_index := z_index + 1 in
  top_ops <-
    (if selected top_name then
       match project_path st with
       | None => None
       | Some _ =>
           if layer_exists ev top_name then
             op <- place_top ev st top_name base_offset z_index ;; Some [op]
           else Some []
       end
     else Some []) ;;
  r1 <-
    (if selected top_name
     then render_bound_layers_for ev st top_name base_offset (z_index + 1)
     else Some ([], z_index)) ;;
  let '(top_bound, z_index) := r1 in
  r2 <-
    (if selected base_name
     then render_bound_layers_for ev st base_name base_offset (z_index + 1)
     else Some ([], z_index)) ;;
  Some (base_ops ++ top_ops ++ top_bound ++ fst r2)%list.

(** ** Manifest cleanup: [cleanup_manifest] *)

(** [cleanup_manifest] with [confirmed] the answer to its Yes/No prompt.
    Returns the names it reports as removed and the new state; [None] is an
    exception. *)
Definition cleanup_manifest (ev : env) (confirmed : bool) (st : state)
  : option (list string * state) :=
  match project_path st with
  | None => Some ([], st)
  | Some _ =>
      if negb confirmed then Some ([], st) else
      match manifest st with
      | JObj d =>
          lv <- Some (dget_or d "layers" (JObj [])) ;;
          match lv with
          | JObj l =>
              let all_layers := map fst l in
              let missing_layers :=
                filter (fun n => negb (layer_exists ev n)) all_layers in
              match missing_layers with
              | [] => Some ([], st)
              | _ :: _ =>
                  Some (missing_layers,
                        mark_dirty (set_layers st (fold_left ddel missing_layers l)))
              end
          | _ => None                    (* [.keys()] on a non-dict *)
          end
      | _ => None                        (* [.get] on a non-dict manifest *)
      end
  end.

(** ** Metadata migration: [run_migration_script] *)

(** [metadata_to_layer_map]: metadata file name -> layer name (the later
    layer wins); [None] when a [metadata] value cannot be a dict key or a
    record does not support [in] / indexing. *)
Fixpoint metadata_to_layer_map (acc : dict) (l : dict) : option dict :=
  match l with
  | [] => Some acc
  | (layer_name, layer_info) :: l' =>
      b <- py_in "metadata" layer_info ;;
      if negb b then metadata_to_layer_map acc l' else
      mf <- py_getitem layer_info "metadata" ;;
      if negb (py_truthy mf) then metadata_to_layer_map acc l' else
      match mf with
      | JStr f => metadata_to_layer_map (dset acc f (JStr layer_name)) l'
      | JArr _ | JObj _ => None           (* unhashable key *)
      | _ => metadata_to_layer_map acc l' (* a key no file name equals *)
      end
  end.

Inductive file_result : Type :=
| FProcessed (data : json)    (** written back with this content *)
| FSkipped
| FError.

(** The body of the [try] for one metadata file [name] with content [c]. *)
Definition migrate_file (ev : env) (mmap : dict) (name : string) (c : option json)
  : file_result :=
  match c with
  | None => FError                                 (* [JSONDecodeError] *)
  | Some data =>
      match py_in "top_layer" data with
      | None => FError
      | Some false => FSkipped
      | Some true =>
          match py_getitem data "top_layer" with
          | None => FError
          | Some tl =>
              match py_in "original_width" tl with
              | None => FError
              | Some true => FSkipped
              | Some false =>
                  match dget mmap name with
                  | None => FSkipped                  (* unlinked metadata *)
                  | Some (JStr layer_filename) =>
                      if negb (layer_exists ev layer_filename) then FError else
                      match pil_size ev layer_filename, tl, data with
                      | Some (w, h), JObj t, JObj dd =>
                          let scale := dget_or t "scale" (JFloat (S754_finite false 1 0)) in
                          match int_mul w scale, int_mul h scale with
                          | Some sw, Some sh =>
                              if write_ok ev then
                                let t' := dset (dset (dset (dset t
                                            "original_width" (JInt w))
                                            "original_height" (JInt h))
                                            "scaled_width" (JInt sw))
                                            "scaled_height" (JInt sh) in
                                FProcessed (JObj (dset dd "top_layer" (JObj t')))
                              else FError
                          | _, _ => FError
                          end
                      | _, _, _ => FError
                      end
                  | Some _ => FError
                  end
              end
          end
      end
  end.

(** [metadata_dir.glob("*.json")] keeps the names ending in [.json]. *)
Definition ends_with (suf t : string) : bool :=
  (String.length suf <=? String.length t)%nat &&
  String.eqb (substring (String.length t - String.length suf) (String.length suf) t) suf.

Definition json_glob (f : string) : bool := ends_with ".json" f.

(** Counters [processed_count], [skipped_count], [error_count]. *)
Record migration_summary : Type := {
  processed_count : nat;
  skipped_count : nat;
  error_count : nat
}.

Definition no_migration : migration_summary :=
  {| processed_count := 0; skipped_count := 0; error_count := 0 |}.

(** The [for i, json_path in enumerate(metadata_files)] loop from index [i];
    [canceled i] is [progress_dialog.wasCanceled()] at iteration [i]. *)
Fixpoint migrate_files (ev : env) (mmap : dict) (canceled : nat -> bool)
  (i : nat) (md : meta_dir) : meta_dir * migration_summary :=
  match md with
  | [] => ([], no_migration)
  | (f, c) :: md' =>
      if negb (json_glob f) then
        let r := migrate_files ev mmap canceled i md' in ((f, c) :: fst r, snd r)
      else if canceled i then (md, no_migration)
      else
        let r := migrate_files ev mmap canceled (S i) md' in
        let n := snd r in
        match migrate_file ev mmap f c with
        | FProcessed d =>
            ((f, Some d) :: fst r,
             {| processed_count := S (processed_count n); skipped_count := skipped_count n;
                error_count := error_count n |})
        | FSkipped =>
            ((f, c) :: fst r,
             {| processed_count := processed_count n; skipped_count := S (skipped_count n);
                error_count := error_count n |})
        | FError =>
            ((f, c) :: fst r,
             {| processed_count := processed_count n; skipped_count := skipped_count n;
                error_count := S (error_count n) |})
        end
  end.

Definition set_metadata (st : state) (md : meta_dir) : state :=
  {| project_path := project_path st; manifest := manifest st; is_dirty := is_dirty st;
     metadata := md; manifest_file := manifest_file st |}.

(** [run_migration_script]: the new state and the summary it reports. *)
Definition run_migration_script (ev : env) (canceled : nat -> bool) (st : state)
  : option (state * migration_summary) :=
  match project_path st with
  | None => Some (st, no_migration)
  | Some _ =>
      match manifest st with
      | JObj d =>
          match dget_or d "layers" (JObj []) with
          | JObj l =>
              mmap <- metadata_to_layer_map [] l ;;
              if negb (existsb (fun fc => json_glob (fst fc)) (metadata st))
              then Some (st, no_migration)
              else
                let r := migrate_files ev mmap canceled 0 (metadata st) in
                Some (set_metadata st (fst r), snd r)
          | _ => None
          end
      | _ => None
      end
  end.

(** ** Layer record edits *)

(** The mutation [update_layer_type] makes to a layer record, with
    [checked] the state of the "is base" checkbox. *)
Definition layer_type_update (checked : bool) (data : dict) : dict :=
  if checked then
    ddel (dsetdefault (dset data "type" (JStr "base_layer")) "offset" (JArr [JInt 0; JInt 0]))
         "metadata"
  else ddel (ddel data "type") "offset".

(** [update_layer_type] on the selected layer [layer_name]. *)
Definition update_layer_type (checked : bool) (layer_name : string) (st : state)
  : option state :=
  l <- layers_of (manifest st) ;;
  data <- dget l layer_name ;;                         (* [KeyError] *)
  match data with
  | JObj r =>
      Some (mark_dirty (set_layers st (dset l layer_name (JObj (layer_type_update checked r)))))
  | _ => None                                          (* [TypeError] *)
  end.

(** A record is of base kind when its [type] is ["base_layer"]. *)
Definition is_base_record (r : dict) : bool :=
  match dget r "type" with Some (JStr t) => String.eqb t "base_layer" | _ => false end.

(** ** Bindings: [bind_layers] and [unbind_layers] *)

(** A value [set(...)] accepts. *)
Definition hashable (x : json) : bool :=
  match x with JArr _ | JObj _ => false | _ => true end.

(** [for layer in layers_to_bind: if layer not in bindings: bindings.append(layer)] *)
Definition append_new (bs : list json) (sel : list string) : list json :=
  fold_left (fun acc n => if existsb (json_is_str n) acc then acc else (acc ++ [JStr n])%list)
    sel bs.

(** [bind_layers] on the selected layer [source]; [sel] is what the dialog
    returns when accepted (the empty list when it is cancelled), drawn from
    the layers it offers. *)
Definition bind_layers (source : string) (sel : list string) (st : state) : option state :=
  l <- layers_of (manifest st) ;;
  data <- dget l source ;;
  match data with
  | JObj r =>
      bound <- py_iter (dget_or r "bindings" (JArr [])) ;;
      if negb (forallb hashable bound) then None else
      let available :=
        filter (fun n => negb (String.eqb n source) && negb (existsb (json_is_str n) bound))
          (map fst l) in
      match available, sel with
      | [], _ => Some st                                (* "No Layers to Bind" *)
      | _, [] => Some st
      | _, _ :: _ =>
          let r1 := dsetdefault r "bindings" (JArr []) in
          match dget_or r1 "bindings" (JArr []) with
          | JArr bs =>
              Some (mark_dirty (set_layers st
                (dset l source (JObj (dset r1 "bindings" (JArr (append_new bs sel)))))))
          | _ => None
          end
      end
  | _ => None
  end.

(** [list.remove(t)]: the first element equal to [t] goes. *)
Fixpoint remove_first (t : string) (bs : list json) : list json :=
  match bs with
  | [] => []
  | b :: bs' => if json_is_str t b then bs' else b :: remove_first t bs'
  end.

(** [for item in selected_bindings: if t in bindings: bindings.remove(t)] *)
Fixpoint unbind_each (sel : list string) (v : json) : option json :=
  match sel with
  | [] => Some v
  | t :: sel' =>
      b <- py_in t v ;;
      if b then
        match v with
        | JArr bs => unbind_each sel' (JArr (remove_first t bs))
        | _ => None                                   (* no [.remove] *)
        end
      else unbind_each sel' v
  end.

(** [unbind_layers] on the selected layer [source] with the items [sel]
    selected in the bound-layers list. *)
Definition unbind_layers (source : string) (sel : list string) (st : state) : option state :=
  match sel with
  | [] => Some st                                      (* "No Selection" *)
  | _ :: _ =>
      l <- layers_of (manifest st) ;;
      data <- dget l source ;;
      b <- py_in "bindings" data ;;
      if negb b then Some st else
      match data with
      | JObj r =>
          v <- dget r "bindings" ;;
          v' <- unbind_each sel v ;;
          let r' := if py_truthy v' then dset r "bindings" v' else ddel r "bindings" in
          Some (mark_dirty (set_layers st (dset l source (JObj r'))))
      | _ => None
      end
  end.

(** ** Metadata edits from the spin boxes: [update_metadata_from_spinboxes] *)

(** [int(v * s)] for a JSON value [v] and a Python float [s]. *)
Definition int_mul_float (v : json) (s : spec_float) : option Z :=
  match v with
  | JInt w => int_of_float (fmul (float_of_int w) s)
  | JBool b => int_of_float (fmul (float_of_int (if b then 1 else 0)) s)
  | JFloat f => int_of_float (fmul f s)
  | _ => None
  end.

Definition is_py_none (v : json) : bool := match v with JNull => true | _ => false end.

(** [update_metadata_from_spinboxes] for the selected layer [layer_name] with
    the spin boxes showing [x], [y] (ints) and [new_scale], [opacity]
    (floats). *)
Definition update_metadata_from_spinboxes (ev : env) (layer_name : string)
  (x y : Z) (new_scale opacity : spec_float) (st : state) : option state :=
  mj <- load_metadata_json_for_layer st layer_name ;;
  match mj with
  | None => Some st
  | Some m =>
      if negb (py_truthy m) then Some st else
      match m with
      | JObj md =>
          let md1 := dsetdefault md "top_layer" (JObj []) in
          match dget_or md1 "top_layer" (JObj []) with
          | JObj t =>
              let t1 := dset (dset (dset (dset t "x" (JInt x)) "y" (JInt y))
                          "scale" (JFloat new_scale)) "opacity" (JFloat opacity) in
              let original_w := dget_or t1 "original_width" JNull in
              let original_h := dget_or t1 "original_height" JNull in
              t2 <- (if is_py_none original_w || is_py_none original_h then Some t1 else
                     sw <- int_mul_float original_w new_scale ;;
                     sh <- int_mul_float original_h new_scale ;;
                     Some (dset (dset t1 "scaled_width" (JInt sw)) "scaled_height" (JInt sh))) ;;
              let m' := JObj (dset md1 "top_layer" (JObj t2)) in
              l <- layers_of (manifest st) ;;
              mf <- py_get (dget_or l layer_name (JObj [])) "metadata" JNull ;;
              if negb (py_truthy mf) then Some st else
              match mf with
              | JStr f =>
                  if write_ok ev
                  then Some (mark_dirty (set_metadata st (meta_write (metadata st) f (Some m'))))
                  else Some st                         (* "Save Error" dialog *)
              | _ => None
              end
          | _ => None
          end
      | _ => None
      end
  end.

(** Field [k] of the [top_layer] section of a metadata document, and of the
    one stored in [metadata/f]. *)
Definition top_field (d : json) (k : string) : option json :=
  match d with
  | JObj md => match dget md "top_layer" with Some (JObj t) => dget t k | _ => None end
  | _ => None
  end.

Definition stored_top_field (st : state) (f k : string) : option json :=
  match meta_lookup (metadata st) f with
  | Some (Some d) => top_field d k
  | _ => None
  end.

(** The spec's [round(original * scale)]: Python's [round] of the float
    product, half to even. *)
Definition round_half_even (f : spec_float) : option Z :=
  match f with
  | S754_zero _ => Some 0
  | S754_infinity _ | S754_nan => None
  | S754_finite sgn m e =>
      let a :=
        if 0 <=? e then Z.pos m * 2 ^ e
        else
          let d := 2 ^ (- e) in
          let q := Z.pos m / d in
          let r := Z.pos m mod d in
          if 2 * r <? d then q else if d <? 2 * r then q + 1
          else if Z.even q then q else q + 1 in
      Some (if sgn then - a else a)
  end.

Definition spec_round_scaled (original : Z) (scale : spec_float) : option Z :=
  round_half_even (fmul (float_of_int original) scale).





(** ** Adding layer files: [_add_layer_files] *)

(** The components of a POSIX path. *)
Fixpoint path_components (cs : list ascii) (cur : list ascii) : list string :=
  match cs with
  | [] => [string_of_list_ascii (rev cur)]
  | c :: cs' =>
      if Ascii.eqb c "/"%char then string_of_list_ascii (rev cur) :: path_components cs' []
      else path_components cs' (c :: cur)
  end.

(** [Path(p).name]: the last component, empty and [.] components dropped. *)
Definition path_name (p : string) : string :=
  last (filter (fun c => negb (String.eqb c "" || String.eqb c "."))
                (path_components (list_ascii_of_string p) [])) "".

(** The record [_add_layer_files] stores for a base layer. *)
Definition base_layer_record : json :=
  JObj [("type", JStr "base_layer"); ("offset", JArr [JInt 0; JInt 0])].

(** The loop over [paths]: [copy_ok src] says whether [shutil.copy] succeeds,
    [overwrite i] is the answer to the "File Exists" question for the [i]-th
    path, and [copied] the names copied so far (a later [dest.exists()] sees
    them). The flag is [true] when an exception left the loop. *)
Fixpoint add_layer_loop (ev : env) (copy_ok : string -> bool) (overwrite : nat -> bool)
  (is_base : bool) (i : nat) (copied : list string) (paths : list string) (m : json)
  : json * bool :=
  match paths with
  | [] => (m, false)
  | path :: rest =>
      let name := path_name path in
      if (layer_exists ev name || existsb (String.eqb name) copied) && negb (overwrite i)
      then add_layer_loop ev copy_ok overwrite is_base (S i) copied rest m
      else if negb (copy_ok path) then (m, true)
      else match layers_of m with
           | Some l =>
               let l' := if is_base then dset l name base_layer_record
                         else dsetdefault l name (JObj []) in
               add_layer_loop ev copy_ok overwrite is_base (S i) (name :: copied) rest
                 (with_layers m l')
           | None => (m, true)
           end
  end.

(** [_add_layer_files(paths, is_base)]; the flag is [true] when it raised. *)
Definition add_layer_files (ev : env) (copy_ok : string -> bool) (overwrite : nat -> bool)
  (paths : list string) (is_base : bool) (st : state) : state * bool :=
  match paths with
  | [] => (st, false)
  | _ =>
      match project_path st with
      | None => (st, true)                          (* [None / "layers"] *)
      | Some _ =>
          let '(m, raised) := add_layer_loop ev copy_ok overwrite is_base 0 [] paths (manifest st) in
          if raised then (set_manifest st m, true)
          else (mark_dirty (set_manifest st m), false)
      end
  end.

(** ** Loading a project: [load_project] *)

Definition set_project_path (st : state) (p : option string) : state :=
  {| project_path := p; manifest := manifest st; is_dirty := is_dirty st;
     metadata := metadata st; manifest_file := manifest_file st |}.

(** [load_project(path)] where [mf] is the project's [manifest.json] ([None]:
    it does not exist; [Some None]: it is not valid JSON), [layers_dir] says
    whether [layers/] is a directory and [md] is the project's [metadata/].
    The flag is [true] when an error dialog was shown; nothing is raised. *)
Definition load_project (mf : option (option json)) (layers_dir : bool) (md : meta_dir)
  (path : string) (st : state) : state * bool :=
  match mf with
  | None => (st, true)
  | Some c =>
      if negb layers_dir then (st, true) else
      let st1 := set_project_path st (Some path) in
      match c with
      | None => (set_project_path st1 None, true)         (* [json.load] raised *)
      | Some (JObj d) =>
          ({| project_path := Some path; manifest := JObj (dsetdefault d "layers" (JObj []));
              is_dirty := false; metadata := md; manifest_file := c |}, false)
      | Some j => (set_project_path (set_manifest st1 j) None, true)  (* [setdefault] raised *)
      end
  end.

(** ** Saving: [save_manifest], [save_project], [auto_save_project] *)

Definition clear_dirty (st : state) : state :=
  {| project_path := project_path st; manifest := manifest st; is_dirty := false;
     metadata := metadata st; manifest_file := manifest_file st |}.

Definition set_manifest_file (st : state) (c : option json) : state :=
  {| project_path := project_path st; manifest := manifest st; is_dirty := is_dirty st;
     metadata := metadata st; manifest_file := c |}.

(** [save_manifest]; the flag is [true] when writing [manifest.json] raised. *)
Definition save_manifest (ev : env) (st : state) : state * bool :=
  match project_path st with
  | None => (st, false)
  | Some _ => if write_ok ev then (set_manifest_file st (Some (manifest st)), false)
              else (st, true)
  end.

(** [save_project]: an exception of [save_manifest] leaves it before
    [self.is_dirty = False]. *)
Definition save_project (ev : env) (st : state) : state * bool :=
  match project_path st with
  | None => (st, false)                              (* "No project is open." *)
  | Some _ =>
      let '(st1, raised) := save_manifest ev st in
      if raised then (st1, true) else (clear_dirty st1, false)
  end.

(** [auto_save_project], run by the 30 s timer. *)
Definition auto_save_project (ev : env) (st : state) : state * bool :=
  match project_path st with
  | Some _ => if is_dirty st then save_project ev st else (st, false)
  | None => (st, false)
  end.

(** ** Default metadata: [_create_and_assign_metadata] *)

(** Position of the last ['.'] in a string. *)
Fixpoint rfind_dot (s : string) (i : nat) (acc : option nat) : option nat :=
  match s with
  | EmptyString => acc
  | String c s' => rfind_dot s' (S i) (if Ascii.eqb c "."%char then Some i else acc)
  end.

(** [Path(p).stem]: the name without its last suffix, a suffix being a dot
    that is neither the first nor the last character of the name. *)
Definition stem (p : string) : string :=
  let n := path_name p in
  match rfind_dot n 0 None with
  | Some i => if Nat.ltb 0 i && Nat.ltb i (String.length n - 1) then substring 0 i n else n
  | None => n
  end.

Definition default_metadata (w h : Z) : json :=
  JObj [("top_layer", JObj [("x", JInt 0); ("y", JInt 0);
                            ("scale", JFloat (S754_finite false 1 0));
                            ("opacity", JFloat (S754_finite false 1 0));
                            ("original_width", JInt w); ("original_height", JInt h);
                            ("scaled_width", JInt w); ("scaled_height", JInt h)])].

(** What a Python call ends with: a returned value or an exception. *)
Inductive py_result (A : Type) : Type :=
| PyRet (a : A)
| PyRaise.
Arguments PyRet {A} a.
Arguments PyRaise {A}.

(** [_create_and_assign_metadata(layer_name)]: [PyRet None] when writing the
    file raised [IOError]. *)
Definition create_and_assign_metadata (ev : env) (layer_name : string) (st : state)
  : state * py_result (option string) :=
  match project_path st with
  | None => (st, PyRaise)
  | Some _ =>
      let '(w, h) := if layer_exists ev layer_name then qpixmap_size ev layer_name else (0, 0) in
      let metadata_filename := (stem layer_name ++ ".json")%string in
      if negb (write_ok ev) then (st, PyRet None) else
      let st1 := set_metadata st (meta_write (metadata st) metadata_filename
                                     (Some (default_metadata w h))) in
      match layers_of (manifest st1) with
      | Some l =>
          match dget l layer_name with
          | Some (JObj r) =>
              (mark_dirty (set_layers st1 (dset l layer_name
                           (JObj (dset r "metadata" (JStr metadata_filename))))),
               PyRet (Some metadata_filename))
          | _ => (st1, PyRaise)
          end
      | None => (st1, PyRaise)
      end
  end.

(** ** The layer list and the preview combo boxes *)

(** [sorted] on strings: Python orders [str] by code point, which on UTF-8
    text is the byte order [String.compare] uses. *)
Fixpoint insert_sorted (x : string) (l : list string) : list string :=
  match l with
  | [] => [x]
  | y :: l' => if String.leb x y then x :: l else y :: insert_sorted x l'
  end.

Fixpoint sort_strings (l : list string) : list string :=
  match l with
  | [] => []
  | x :: l' => insert_sorted x (sort_strings l')
  end.

(** What follows the first space ([text.split(" ", 1)[1]]), [None] when
    there is none ([IndexError]). *)
Fixpoint after_first_space (s : string) : option string :=
  match s with
  | EmptyString => None
  | String c s' => if Ascii.eqb c " "%char then Some s' else after_first_space s'
  end.

(** [get_layer_name_from_item(item)], with [item] the text of the current
    list item ([None] when there is none). *)
Definition get_layer_name_from_item (item : option string) : string :=
  match item with
  | None => ""
  | Some t => match after_first_space t with Some n => n | None => "" end
  end.

(** [has_metadata = "metadata" in data and data["metadata"]], as a truth value. *)
Definition has_metadata_of (data : json) : option bool :=
  b <- py_in "metadata" data ;;
  if b then v <- py_getitem data "metadata" ;; Some (py_truthy v) else Some false.

(** [get_prefix_for_layer(layer_name)] on [self.manifest["layers"] = l]. *)
Definition get_prefix_for_layer (l : dict) (layer_name : string) : option string :=
  let data := dget_or l layer_name (JObj []) in
  t <- py_get data "type" JNull ;;
  if json_is_str "base_layer" t then Some "[B]" else
  hm <- has_metadata_of data ;;
  if hm then Some "[M]" else Some "[X]".

(** The loop of [populate_layer_list] over the sorted names: the item texts
    and the row of [cur] among them ([new_row_to_select]). *)
Fixpoint populate_loop (l : dict) (filter_on : bool) (cur : string) (names : list string)
  (row : nat) (found : option nat) : option (list string * option nat) :=
  match names with
  | [] => Some ([], found)
  | name :: rest =>
      data <- dget l name ;;
      hm <- has_metadata_of data ;;
      if negb filter_on || negb hm then
        prefix <- get_prefix_for_layer l name ;;
        r <- populate_loop l filter_on cur rest (S row)
               (if String.eqb name cur then Some row else found) ;;
        Some ((prefix ++ " " ++ name) :: fst r, snd r)
      else populate_loop l filter_on cur rest row found
  end.

(** [populate_layer_list] with the filter checkbox [filter_on] and the text
    of the current item: the new item texts and the row made current ([None]:
    [setCurrentRow] is not called). *)
Definition populate_layer_list (st : state) (filter_on : bool) (current : option string)
  : option (list string * option nat) :=
  let cur := get_layer_name_from_item current in
  match project_path st with
  | None => Some ([], None)
  | Some _ =>
      layers <- py_get (manifest st) "layers" (JObj []) ;;
      match layers with
      | JObj l =>
          r <- populate_loop l filter_on cur (sort_strings (map fst l)) 0 None ;;
          Some (fst r, match snd r with
                       | Some i => Some i
                       | None => match fst r with [] => None | _ => Some 0%nat end
                       end)
      | _ => None
      end
  end.

(** Whether [populate_layer_list] shows the layer [n]. *)
Definition shown (l : dict) (filter_on : bool) (n : string) : bool :=
  match dget l n with
  | Some data => match has_metadata_of data with
                 | Some hm => negb filter_on || negb hm
                 | None => false
                 end
  | None => false
  end.

(** [d.get("type") == "base_layer"] for each layer, in dict order. *)
Fixpoint split_by_type (l : dict) : option (list string * list string) :=
  match l with
  | [] => Some ([], [])
  | (n, d) :: l' =>
      t <- py_get d "type" JNull ;;
      r <- split_by_type l' ;;
      if json_is_str "base_layer" t then Some (n :: fst r, snd r)
      else Some (fst r, n :: snd r)
  end.

(** [populate_combo_boxes] with the current texts of the two combo boxes:
    the items of each and the texts they show afterwards. *)
Definition populate_combo_boxes (st : state) (base_text top_text : string)
  : option ((list string * string) * (list string * string)) :=
  layers <- py_get (manifest st) "layers" (JObj []) ;;
  match layers with
  | JObj l =>
      r <- split_by_type l ;;
      let base_items := "<None>" :: sort_strings (fst r) in
      let top_items := "<None>" :: sort_strings (snd r) in
      (* [clear] and [addItems] make the first item current *)
      Some ((base_items, if existsb (String.eqb base_text) base_items then base_text else "<None>"),
            (top_items, if existsb (String.eqb top_text) top_items then top_text else "<None>"))
  | _ => None
  end.

(** ** Editing the selected layer *)

(** Whether a layer record is a base layer ([d.get("type") == "base_layer"]). *)
Definition layer_is_base (v : json) : bool :=
  match v with JObj r => is_base_record r | _ => false end.

(** [update_base_offset] for the selected layer [layer_name] with the offset
    spin boxes (int [QSpinBox]es) showing [x] and [y]; the [update_preview]
    that follows only redraws. *)
Definition update_base_offset (layer_name : string) (x y : Z) (st : state) : option state :=
  l <- layers_of (manifest st) ;;
  data <- dget l layer_name ;;
  t <- py_get data "type" JNull ;;
  if json_is_str "base_layer" t then
    match data with
    | JObj r => Some (mark_dirty (set_layers st
                  (dset l layer_name (JObj (dset r "offset" (JArr [JInt x; JInt y]))))))
    | _ => None
    end
  else Some st.

(** [remove_layer] for the selected layer [layer_name]: [confirmed] is the
    answer to "Confirm Deletion" and [unlink_ok] whether
    [unlink(missing_ok=True)] succeeds on its file. The flag is [true] when
    it raised before [mark_dirty]; the list refresh that follows does not
    change the state. *)
Definition remove_layer (unlink_ok : string -> bool) (confirmed : bool) (layer_name : string)
  (st : state) : state * bool :=
  if negb confirmed then (st, false) else
  match layers_of (manifest st) with
  | None => (st, true)
  | Some l =>
      let st1 := set_layers st (ddel l layer_name) in
      match project_path st with
      | None => (st1, true)                         (* [None / "layers"] *)
      | Some _ => if unlink_ok layer_name then (mark_dirty st1, false) else (st1, true)
      end
  end.

(** [clear_metadata] for the selected layer [layer_name]; the refresh of the
    list and of the layer panel that follows does not change the state. *)
Definition clear_metadata (layer_name : string) (st : state) : option state :=
  l <- layers_of (manifest st) ;;
  data <- dget l layer_name ;;
  b <- py_in "metadata" data ;;
  if negb b then Some st else
  match data with
  | JObj r => Some (mark_dirty (set_layers st (dset l layer_name (JObj (ddel r "metadata")))))
  | _ => None
  end.

(** The strings [for name in self.manifest["layers"]] iterates; [Path] of a
    value that is not a string raises [TypeError]. *)
Fixpoint str_list (xs : list json) : option (list string) :=
  match xs with
  | [] => Some []
  | JStr n :: xs' => r <- str_list xs' ;; Some (n :: r)
  | _ :: _ => None
  end.

Definition layer_names_of (m : json) : option (list string) :=
  match m with
  | JObj d => lv <- dget d "layers" ;; xs <- py_iter lv ;; str_list xs
  | _ => None
  end.

(** [{Path(name).stem: name for name in layers}]: a later name with the same
    stem replaces the value, the key keeps its place. *)
Definition layer_basename_map (names : list string) : dict :=
  fold_left (fun acc name => dset acc (stem name) (JStr name)) names [].

(** The last name of [names] with stem [s]. *)
Definition last_with_stem (names : list string) (s : string) : option string :=
  fold_left (fun acc n => if String.eqb (stem n) s then Some n else acc) names None.

(** The loop of [import_metadata]: [copy_ok] says whether [shutil.copy]
    succeeds on a chosen file and [src] gives its content. Returns the
    number of matched files and the names of the unmatched ones. *)
Fixpoint import_loop (copy_ok : string -> bool) (src : string -> option json) (bmap : dict)
  (paths : list string) (st : state) (matched : nat) (unmatched : list string)
  : state * py_result (nat * list string) :=
  match paths with
  | [] => (st, PyRet (matched, unmatched))
  | path :: rest =>
      match dget bmap (stem path) with
      | Some (JStr layer_name) =>
          if negb (copy_ok path) then (st, PyRaise) else
          let st1 := set_metadata st (meta_write (metadata st) (path_name path) (src path)) in
          match layers_of (manifest st1) with
          | Some l =>
              match dget l layer_name with
              | Some (JObj r) =>
                  import_loop copy_ok src bmap rest
                    (set_layers st1 (dset l layer_name
                       (JObj (dset r "metadata" (JStr (path_name path))))))
                    (S matched) unmatched
              | _ => (st1, PyRaise)
              end
          | None => (st1, PyRaise)
          end
      | _ => import_loop copy_ok src bmap rest st matched (unmatched ++ [path_name path])%list
      end
  end.

(** [import_metadata] with the files [paths] chosen in the dialog; [PyRet
    None] when it returns before importing. *)
Definition import_metadata (ev : env) (copy_ok : string -> bool) (src : string -> option json)
  (paths : list string) (st : state) : state * py_result (option (nat * list string)) :=
  match project_path st with
  | None => (st, PyRet None)
  | Some _ =>
      match paths with
      | [] => (st, PyRet None)
      | _ :: _ =>
          if negb (write_ok ev) then (st, PyRaise) else    (* [mkdir] *)
          match layer_names_of (manifest st) with
          | None => (st, PyRaise)
          | Some names =>
              let '(st', res) := import_loop copy_ok src (layer_basename_map names)
                                   paths st 0 [] in
              match res with
              | PyRet (m, u) => (if Nat.ltb 0 m then mark_dirty st' else st', PyRet (Some (m, u)))
              | PyRaise => (st', PyRaise)
              end
          end
      end
  end.

(** ** Unsaved changes: [prompt_save_if_dirty], [closeEvent], [new_project] *)

(** The answers to "Unsaved Changes". *)
Inductive save_reply : Type := RSave | RDiscard | RCancel.

(** [prompt_save_if_dirty]; [save_project] returns [True] exactly when a
    project is open. *)
Definition prompt_save_if_dirty (ev : env) (reply : save_reply) (st : state)
  : state * py_result bool :=
  if negb (is_dirty st) then (st, PyRet true) else
  match reply with
  | RSave =>
      let '(st', raised) := save_project ev st in
      if raised then (st', PyRaise)
      else (st', PyRet match project_path st with Some _ => true | None => false end)
  | RCancel => (st, PyRet false)
  | RDiscard => (st, PyRet true)
  end.

(** [closeEvent]: [PyRet true] is [event.accept()], [PyRet false]
    [event.ignore()]. *)
Definition close_event (ev : env) (reply : save_reply) (st : state) : state * py_result bool :=
  prompt_save_if_dirty ev reply st.

(** [new_project] with the directory [path] chosen ([""] when cancelled),
    [dir_empty] whether it is empty, and [reply] the answer to a prompt about
    unsaved changes. *)
Definition new_project (ev : env) (reply : save_reply) (path : string) (dir_empty : bool)
  (st : state) : state * py_result unit :=
  let '(st0, r) := prompt_save_if_dirty ev reply st in
  match r with
  | PyRaise => (st0, PyRaise)
  | PyRet false => (st0, PyRet tt)
  | PyRet true =>
      if String.eqb path "" then (st0, PyRet tt) else
      if negb dir_empty then (st0, PyRet tt) else      (* "Please select an empty directory." *)
      let st1 := set_project_path st0 (Some path) in
      if negb (write_ok ev) then (st1, PyRaise) else    (* the two [mkdir] *)
      let st2 := set_manifest st1 (JObj [("layers", JObj [])]) in
      let '(st3, raised) := save_manifest ev st2 in
      if raised then (st3, PyRaise) else
      (fst (load_project (Some (manifest_file st3)) true [] path st3), PyRet tt)
  end.

(** ** The metadata text editor: [save_metadata_from_editor] *)

(** [save_metadata_from_editor] for the selected layer [layer_name]; [editor]
    is the editor's text as [json.loads] parses it ([None]: invalid JSON). The
    panel refresh and [update_preview] that follow do not change the state. *)
Definition save_metadata_from_editor (ev : env) (layer_name : string) (editor : option json)
  (st : state) : option state :=
  l <- layers_of (manifest st) ;;
  mf <- py_get (dget_or l layer_name (JObj [])) "metadata" JNull ;;
  if negb (py_truthy mf) then Some st else               (* "no associated metadata file" *)
  match mf, project_path st with
  | JStr f, Some _ =>
      match editor with
      | None => Some st                                  (* "Invalid JSON" *)
      | Some c =>
          if write_ok ev then Some (mark_dirty (set_metadata st (meta_write (metadata st) f (Some c))))
          else Some st                                   (* "Save Error" *)
      end
  | _, _ => None
  end.

(** ** Example inputs *)

Definition no_cancel : nat -> bool := fun _ => false.


Definition ex_env : env :=
  {| layer_exists := fun _ => true; qpixmap_size := fun _ => (100, 50);
     pil_size := fun _ => Some (100, 50); write_ok := true |}.

Definition float_one : spec_float := S754_finite false 1 0.
Definition float_0_75 : spec_float := S754_finite false 3 (-2).

(** A layer [a.png] with metadata [a.json] for a 5x5 image at scale 1. *)
Definition ex_state : state :=
  {| project_path := Some "proj";
     manifest := JObj [("layers", JObj [("a.png", JObj [("metadata", JStr "a.json")])])];
     is_dirty := false;
     metadata := [("a.json", Some (JObj [("top_layer", JObj [
                    ("x", JInt 0); ("y", JInt 0); ("scale", JFloat float_one);
                    ("opacity", JFloat float_one); ("original_width", JInt 5);
                    ("original_height", JInt 5); ("scaled_width", JInt 5);
                    ("scaled_height", JInt 5)])]))];
     manifest_file := None |}.

(** [ex_env] where every write fails. *)
Definition ex_env_fail : env :=
  {| layer_exists := fun _ => true; qpixmap_size := fun _ => (100, 50);
     pil_size := fun _ => Some (100, 50); write_ok := false |}.

(** An environment where no layer file exists and writes succeed. *)
Definition ex_env_missing : env :=
  {| layer_exists := fun _ => false; qpixmap_size := fun _ => (100, 50);
     pil_size := fun _ => None; write_ok := true |}.

(** Two layers, [a.png] with metadata and [b.png] without. *)
Definition ex_state2 : state :=
  {| project_path := Some "proj";
     manifest := JObj [("layers", JObj [("a.png", JObj [("metadata", JStr "a.json")]);
                                        ("b.png", JObj [])])];
     is_dirty := false; metadata := []; manifest_file := None |}.

(** A base layer bound to [x.png] and [y.png], a top layer bound to [p.png]
    and [q.png]. *)
Definition ex_preview_layers : dict :=
  [("base.png", JObj [("type", JStr "base_layer"); ("offset", JArr [JInt 0; JInt 0]);
                      ("bindings", JArr [JStr "x.png"; JStr "y.png"])]);
   ("top.png", JObj [("bindings", JArr [JStr "p.png"; JStr "q.png"])]);
   ("p.png", JObj []); ("q.png", JObj []); ("x.png", JObj []); ("y.png", JObj [])].

Definition ex_preview_state : state :=
  {| project_path := Some "proj"; manifest := JObj [("layers", JObj ex_preview_layers)];
     is_dirty := false; metadata := []; manifest_file := None |}.

(** A project with an old-format metadata file (scale 2.0, no sizes) and a
    metadata file that is not valid JSON. *)
Definition ex_migr_state : state :=
  {| project_path := Some "proj";
     manifest := JObj [("layers", JObj [("a.png", JObj [("metadata", JStr "a.json")]);
                                        ("b.png", JObj [("metadata", JStr "b.json")])])];
     is_dirty := false;
     metadata := [("a.json", Some (JObj [("top_layer", JObj [("x", JInt 0); ("y", JInt 0);
                                          ("scale", JFloat (S754_finite false 1 1))])]));
                  ("b.json", None)];
     manifest_file := None |}.

(** The layers of [ex_state2]. *)
Definition ex_layers2 : dict :=
  [("a.png", JObj [("metadata", JStr "a.json")]); ("b.png", JObj [])].

(** A base layer with offset (5, 6) bound to [x.png], and a top layer
    [t.png]; both [t.png] and [x.png] use the metadata of [ex_state]. *)
Definition ex_offset_base : dict :=
  [("type", JStr "base_layer"); ("offset", JArr [JInt 5; JInt 6]);
   ("bindings", JArr [JStr "x.png"])].

Definition ex_offset_layers : dict :=
  [("base.png", JObj ex_offset_base);
   ("t.png", JObj [("metadata", JStr "a.json")]);
   ("x.png", JObj [("metadata", JStr "a.json")])].

Definition ex_offset_state : state :=
  {| project_path := Some "proj"; manifest := JObj [("layers", JObj ex_offset_layers)];
     is_dirty := false; metadata := metadata ex_state; manifest_file := None |}.

(** The preview of [ex_offset_state], before and after moving the base
    layer to (7, 8). *)
Definition ex_offset_ops : list drawop :=
  match update_preview ex_env ex_offset_state "base.png" "t.png" with
  | Some ops => ops | None => [] end.

Definition ex_offset_moved : state :=
  match update_base_offset "base.png" 7 8 ex_offset_state with
  | Some st => st | None => ex_offset_state end.

Definition ex_offset_moved_ops : list drawop :=
  match update_preview ex_env ex_offset_moved "base.png" "t.png" with
  | Some ops => ops | None => [] end.

(** The combo boxes of [ex_preview_state] when the top combo box showed a
    layer that no longer exists. *)
Definition ex_combo : (list string * string) * (list string * string) :=
  match populate_combo_boxes ex_preview_state "base.png" "gone.png" with
  | Some r => r | None => (([], ""), ([], "")) end.

(** The record of [base.png] in [ex_preview_layers]. *)
Definition ex_preview_base : dict :=
  [("type", JStr "base_layer"); ("offset", JArr [JInt 0; JInt 0]);
   ("bindings", JArr [JStr "x.png"; JStr "y.png"])].

(** ** Properties *)



(** The top layer's scale as Python treats it: a digit string is repeated
    [width] times and parsed, infinities and NaN make [int()] raise, and a
    size outside a C int makes [QSize] raise. *)
Example qsize_dim_digit_string : qsize_dim 100 (JStr "0") = Some 0.
Proof. vm_compute. reflexivity. Qed.

Example qsize_dim_digit_limit : qsize_dim 5000 (JStr "0") = None.
Proof. vm_compute. reflexivity. Qed.

Example qsize_dim_infinite : qsize_dim 100 (JFloat (S754_infinity false)) = None.
Proof. vm_compute. reflexivity. Qed.

Example qsize_dim_nan : qsize_dim 100 (JFloat S754_nan) = None.
Proof. vm_compute. reflexivity. Qed.

Example qsize_dim_overflow : qsize_dim 100 (JInt (2 ^ 30)) = None.
Proof. vm_compute. reflexivity. Qed.

Example update_preview_no_project :
  update_preview ex_env (set_project_path ex_preview_state None) "base.png" "top.png" = None.
Proof. vm_compute. reflexivity. Qed.



Lemma dset_dget_same (d : dict) (k : string) (v : json) :
  dget d k = Some v -> dset d k v = d.
Proof.
  induction d as [|[k' v'] d IH]; simpl; [discriminate|].
  destruct (String.eqb k k') eqn:E.
  - intros H; injection H as ->. apply String.eqb_eq in E. subst. reflexivity.
  - intros H. rewrite IH; auto.
Qed.

Lemma filter_filter_and {A : Type} (f g : A -> bool) (l : list A) :
  filter f (filter g l) = filter (fun x => f x && g x) l.
Proof.
  induction l as [|x l IH]; simpl; [reflexivity|].
  destruct (g x); simpl; destruct (f x); simpl; rewrite ?IH; reflexivity.
Qed.

Lemma fold_ddel (ks : list string) (l : dict) :
  fold_left ddel ks l = filter (fun kv => negb (existsb (String.eqb (fst kv)) ks)) l.
Proof.
  revert l. induction ks as [|k ks IH]; intros l; simpl.
  - induction l as [|kv l IHl]; simpl; [reflexivity|]. rewrite <- IHl. reflexivity.
  - rewrite IH. unfold ddel. rewrite filter_filter_and.
    apply filter_ext. intros [k' v]. simpl.
    rewrite (String.eqb_sym k k'). destruct (String.eqb k' k); simpl;
      [rewrite andb_false_r|rewrite andb_true_r]; reflexivity.
Qed.

Lemma fold_ddel_missing (ev : env) (l : dict) :
  fold_left ddel (filter (fun n => negb (layer_exists ev n)) (map fst l)) l
  = filter (fun kv => layer_exists ev (fst kv)) l.
Proof.
  rewrite fold_ddel. apply filter_ext_in. intros [k v] Hin. simpl.
  destruct (layer_exists ev k) eqn:E.
  - destruct (existsb (String.eqb k) _) eqn:X; [|reflexivity].
    apply existsb_exists in X. destruct X as [k' [Hk' Heq]].
    apply String.eqb_eq in Heq. subst k'.
    apply filter_In in Hk'. destruct Hk' as [_ Hn]. rewrite E in Hn. discriminate.
  - replace (existsb (String.eqb k) _) with true; [reflexivity|].
    symmetry. apply existsb_exists. exists k. split; [|apply String.eqb_refl].
    apply filter_In. split; [|rewrite E; reflexivity].
    apply in_map_iff. exists (k, v). auto.
Qed.

(** C2: confirmed cleanup of an open project reports exactly the layers
    whose image is missing under [layers/], in manifest order, keeps the
    records of the other layers as they are (their [bindings] included),
    and changes neither the metadata files, nor the project path, nor the
    saved [manifest.json], nor any other key of [self.manifest]. *)
Theorem cleanup_removes_missing (ev : env) (st : state) (d l : dict) (path : string) :
  project_path st = Some path ->
  manifest st = JObj d -> dget d "layers" = Some (JObj l) ->
  exists st',
    cleanup_manifest ev true st = Some
      (filter (fun n => negb (layer_exists ev n)) (map fst l), st')
    /\ manifest st' = JObj (dset d "layers"
                              (JObj (filter (fun kv => layer_exists ev (fst kv)) l)))
    /\ metadata st' = metadata st
    /\ project_path st' = project_path st
    /\ manifest_file st' = manifest_file st.
Proof.
  intros Hp Hm Hd.
  unfold cleanup_manifest. rewrite Hp, Hm. simpl. unfold dget_or. rewrite Hd.
  destruct (filter (fun n => negb (layer_exists ev n)) (map fst l)) as [|m ms] eqn:E.
  - assert (Hf : filter (fun kv => layer_exists ev (fst kv)) l = l).
    { rewrite <- fold_ddel_missing, E. reflexivity. }
    exists st. split; [reflexivity|]. split.
    + rewrite Hf, dset_dget_same; auto.
    + repeat split; auto.
  - eexists. split; [reflexivity|].
    rewrite <- E, fold_ddel_missing.
    unfold mark_dirty, set_layers, set_manifest, with_layers. simpl.
    rewrite Hm. repeat split; auto.
Qed.

Lemma dget_dset_same (d : dict) (k : string) (v : json) : dget (dset d k v) k = Some v.
Proof.
  induction d as [|[k' v'] d IH]; simpl.
  - rewrite String.eqb_refl. reflexivity.
  - destruct (String.eqb k k') eqn:E; simpl; rewrite ?E; auto.
Qed.

Lemma dget_dset_other (d : dict) (k k2 : string) (v : json) :
  k2 <> k -> dget (dset d k v) k2 = dget d k2.
Proof.
  intros Hne. induction d as [|[k' v'] d IH]; simpl.
  - destruct (String.eqb k2 k) eqn:E; [apply String.eqb_eq in E; congruence|reflexivity].
  - destruct (String.eqb k k') eqn:E; simpl.
    + apply String.eqb_eq in E. subst k'.
      destruct (String.eqb k2 k) eqn:E2; [apply String.eqb_eq in E2; congruence|reflexivity].
    + destruct (String.eqb k2 k'); auto.
Qed.

Lemma dmem_dset_same (d : dict) (k : string) (v : json) : dmem (dset d k v) k = true.
Proof. unfold dmem. rewrite dget_dset_same. reflexivity. Qed.

Lemma dmem_dset_other (d : dict) (k k2 : string) (v : json) :
  k2 <> k -> dmem (dset d k v) k2 = dmem d k2.
Proof. intros H. unfold dmem. rewrite dget_dset_other; auto. Qed.

(** A migrated file is skipped by the next pass. *)
Lemma migrate_file_processed_skipped (ev : env) (mmap : dict) (f : string)
    (c : option json) (d : json) :
  migrate_file ev mmap f c = FProcessed d -> migrate_file ev mmap f (Some d) = FSkipped.
Proof.
  unfold migrate_file.
  destruct c as [data|]; [|discriminate].
  destruct (py_in "top_layer" data) as [[|]|]; try discriminate.
  destruct (py_getitem data "top_layer") as [tl|]; [|discriminate].
  destruct (py_in "original_width" tl) as [[|]|]; try discriminate.
  destruct (dget mmap f) as [[]|]; try discriminate.
  destruct (negb (layer_exists ev s)); [discriminate|].
  destruct (pil_size ev s) as [[w h]|]; [|discriminate].
  destruct tl; try discriminate. destruct data; try discriminate.
  destruct (int_mul w _) as [sw|]; [|discriminate].
  destruct (int_mul h _) as [sh|]; [|discriminate].
  destruct (write_ok ev); [|discriminate].
  intros H; injection H as <-. simpl.
  rewrite dmem_dset_same, dget_dset_same. simpl.
  rewrite dmem_dset_other by discriminate.
  rewrite dmem_dset_other by discriminate.
  rewrite dmem_dset_other by discriminate.
  rewrite dmem_dset_same. reflexivity.
Qed.

Lemma migrate_files_names (ev : env) (mmap : dict) (i : nat) (md : meta_dir) :
  map fst (fst (migrate_files ev mmap no_cancel i md)) = map fst md.
Proof.
  revert i. induction md as [|[f c] md IH]; intros i; simpl; [reflexivity|].
  destruct (json_glob f); simpl; [|rewrite IH; reflexivity].
  destruct (migrate_file ev mmap f c); simpl; rewrite IH; reflexivity.
Qed.

Lemma migrate_files_twice (ev : env) (mmap : dict) (i j : nat) (md : meta_dir) :
  let r1 := migrate_files ev mmap no_cancel i md in
  let r2 := migrate_files ev mmap no_cancel j (fst r1) in
  processed_count (snd r2) = 0%nat
  /\ skipped_count (snd r2) = (skipped_count (snd r1) + processed_count (snd r1))%nat
  /\ error_count (snd r2) = error_count (snd r1).
Proof.
  revert i j. induction md as [|[f c] md IH]; intros i j; cbn -[migrate_file]; [auto|].
  destruct (json_glob f) eqn:G; cbn -[migrate_file].
  - destruct (migrate_file ev mmap f c) as [d| |] eqn:M; cbn -[migrate_file]; rewrite G; cbn -[migrate_file].
    + rewrite (migrate_file_processed_skipped ev mmap f c d M). cbn -[migrate_file].
      destruct (IH (S i) (S j)) as [A [B C]]. rewrite A, B, C. split; [reflexivity|]. lia.
    + rewrite M. cbn -[migrate_file]. destruct (IH (S i) (S j)) as [A [B C]]. rewrite A, B, C. auto.
    + rewrite M. cbn -[migrate_file]. destruct (IH (S i) (S j)) as [A [B C]]. rewrite A, B, C. auto.
  - rewrite G. cbn -[migrate_file]. apply IH.
Qed.

Lemma existsb_glob_names (md : meta_dir) :
  existsb (fun fc => json_glob (fst fc)) md = existsb json_glob (map fst md).
Proof. induction md as [|[f c] md IH]; simpl; [reflexivity|]. rewrite IH. reflexivity. Qed.

(** C3: a second, uncancelled migration pass over the files the first pass
    left behind migrates nothing: every file the first pass migrated is
    skipped, the other outcomes repeat. *)
Theorem migration_idempotent (ev : env) (st st1 st2 : state)
    (c1 c2 : migration_summary) :
  run_migration_script ev no_cancel st = Some (st1, c1) ->
  run_migration_script ev no_cancel st1 = Some (st2, c2) ->
  processed_count c2 = 0%nat
  /\ skipped_count c2 = (skipped_count c1 + processed_count c1)%nat
  /\ error_count c2 = error_count c1.
Proof.
  unfold run_migration_script.
  destruct (project_path st) eqn:P.
  2:{ intros H; injection H as <- <-. rewrite P. intros H; injection H as <- <-. auto. }
  destruct (manifest st) as [| | | | | |d] eqn:Mf; try discriminate.
  destruct (dget_or d "layers" (JObj [])) as [| | | | | |l] eqn:L; try discriminate.
  destruct (metadata_to_layer_map [] l) as [mmap|] eqn:MM; [|discriminate].
  destruct (existsb (fun fc => json_glob (fst fc)) (metadata st)) eqn:G; simpl.
  - intros H; injection H as <- <-. simpl. rewrite P, Mf, L, MM.
    assert (Hn : existsb (fun fc => json_glob (fst fc))
                   (fst (migrate_files ev mmap no_cancel 0 (metadata st))) = true).
    { rewrite existsb_glob_names, migrate_files_names, <- existsb_glob_names. exact G. }
    rewrite Hn. simpl. intros H; injection H as <- <-. apply migrate_files_twice.
  - intros H; injection H as <- <-. rewrite P, Mf, L, MM, G. simpl.
    intros H; injection H as <- <-. auto.
Qed.

Lemma dget_ddel_same (d : dict) (k : string) : dget (ddel d k) k = None.
Proof.
  induction d as [|[k' v'] d IH]; simpl; [reflexivity|].
  destruct (String.eqb k k') eqn:E; simpl; [exact IH|]. rewrite E. exact IH.
Qed.

Lemma dget_ddel_other (d : dict) (k k2 : string) :
  k2 <> k -> dget (ddel d k) k2 = dget d k2.
Proof.
  intros Hne. induction d as [|[k' v'] d IH]; simpl; [reflexivity|].
  destruct (String.eqb k k') eqn:E; simpl.
  - apply String.eqb_eq in E. subst k'.
    destruct (String.eqb k2 k) eqn:E2; [apply String.eqb_eq in E2; congruence|exact IH].
  - destruct (String.eqb k2 k'); [reflexivity|exact IH].
Qed.

Lemma dget_dsetdefault_same (d : dict) (k : string) (v : json) :
  dget (dsetdefault d k v) k = Some (dget_or d k v).
Proof.
  unfold dsetdefault, dmem, dget_or. destruct (dget d k) eqn:E; [exact E|].
  apply dget_dset_same.
Qed.

Lemma dget_dsetdefault_other (d : dict) (k k2 : string) (v : json) :
  k2 <> k -> dget (dsetdefault d k v) k2 = dget d k2.
Proof.
  intros H. unfold dsetdefault. destruct (dmem d k); [reflexivity|].
  apply dget_dset_other; exact H.
Qed.

(** The record-level effect of the toggle. *)
Lemma layer_type_update_spec (r : dict) :
  dget (layer_type_update true r) "type" = Some (JStr "base_layer")
  /\ dget (layer_type_update true r) "offset" = Some (dget_or r "offset" (JArr [JInt 0; JInt 0]))
  /\ dget (layer_type_update true r) "metadata" = None
  /\ dget (layer_type_update false r) "type" = None
  /\ dget (layer_type_update false r) "offset" = None.
Proof.
  unfold layer_type_update. repeat split.
  - rewrite dget_ddel_other by discriminate.
    rewrite dget_dsetdefault_other by discriminate. apply dget_dset_same.
  - rewrite dget_ddel_other by discriminate.
    rewrite dget_dsetdefault_same. unfold dget_or.
    rewrite dget_dset_other by discriminate. reflexivity.
  - apply dget_ddel_same.
  - rewrite dget_ddel_other by discriminate. apply dget_ddel_same.
  - apply dget_ddel_same.
Qed.

(** C4: toggling the selected layer to base gives it [type = "base_layer"],
    an [offset] (the one it had, else [[0, 0]]) and no [metadata]; toggling
    it back removes [type] and [offset]; so whichever way the checkbox is
    set, a record that comes out of base kind has an offset and no metadata
    file. *)
Theorem update_layer_type_base_invariant (st : state) (l r : dict) (name : string) :
  layers_of (manifest st) = Some l -> dget l name = Some (JObj r) ->
  (exists st', update_layer_type true name st = Some st'
     /\ layers_of (manifest st') = Some (dset l name (JObj (layer_type_update true r)))
     /\ dget (layer_type_update true r) "type" = Some (JStr "base_layer")
     /\ dget (layer_type_update true r) "offset" = Some (dget_or r "offset" (JArr [JInt 0; JInt 0]))
     /\ dget (layer_type_update true r) "metadata" = None)
  /\ (exists st', update_layer_type false name st = Some st'
     /\ layers_of (manifest st') = Some (dset l name (JObj (layer_type_update false r)))
     /\ dget (layer_type_update false r) "type" = None
     /\ dget (layer_type_update false r) "offset" = None)
  /\ (forall checked, is_base_record (layer_type_update checked r) = true ->
        dmem (layer_type_update checked r) "offset" = true
        /\ dmem (layer_type_update checked r) "metadata" = false).
Proof.
  intros Hl Hr.
  destruct (layer_type_update_spec r) as [T1 [O1 [M1 [T2 O2]]]].
  assert (Hlay : forall c, layers_of (manifest (mark_dirty (set_layers st
             (dset l name (JObj (layer_type_update c r))))))
             = Some (dset l name (JObj (layer_type_update c r)))).
  { intros c. unfold mark_dirty, set_layers, set_manifest, with_layers. simpl.
    unfold layers_of in Hl. destruct (manifest st) as [| | | | | |d]; try discriminate.
    simpl. rewrite dget_dset_same. reflexivity. }
  unfold update_layer_type. rewrite Hl, Hr. cbn -[layer_type_update].
  split; [|split].
  - eexists. split; [reflexivity|]. split; [apply (Hlay true)|]. auto.
  - eexists. split; [reflexivity|]. split; [apply (Hlay false)|]. auto.
  - intros [|] Hb.
    + unfold dmem. rewrite O1, M1. auto.
    + unfold is_base_record in Hb. rewrite T2 in Hb. discriminate.
Qed.

Lemma layers_of_set_layers (st : state) (l l' : dict) :
  layers_of (manifest st) = Some l ->
  layers_of (manifest (mark_dirty (set_layers st l'))) = Some l'.
Proof.
  intros Hl. unfold mark_dirty, set_layers, set_manifest, with_layers. simpl.
  unfold layers_of in *. destruct (manifest st) as [| | | | | |d]; try discriminate.
  rewrite dget_dset_same. reflexivity.
Qed.

Lemma dset_dset_same (d : dict) (k : string) (v w : json) :
  dset (dset d k v) k w = dset d k w.
Proof.
  induction d as [|[k' v'] d IH]; simpl.
  - rewrite String.eqb_refl. reflexivity.
  - destruct (String.eqb k k') eqn:E; simpl; rewrite E; [reflexivity|]. rewrite IH. reflexivity.
Qed.

Lemma ddel_dset_same (d : dict) (k : string) (v : json) : ddel (dset d k v) k = ddel d k.
Proof.
  induction d as [|[k' v'] d IH]; simpl.
  - rewrite String.eqb_refl. reflexivity.
  - destruct (String.eqb k k') eqn:E; simpl; rewrite E; simpl; [reflexivity|].
    rewrite <- IH. reflexivity.
Qed.

Lemma ddel_dsetdefault_same (d : dict) (k : string) (v : json) :
  ddel (dsetdefault d k v) k = ddel d k.
Proof. unfold dsetdefault. destruct (dmem d k); [reflexivity|]. apply ddel_dset_same. Qed.

Lemma ddel_absent (d : dict) (k : string) : dget d k = None -> ddel d k = d.
Proof.
  induction d as [|[k' v'] d IH]; simpl; [reflexivity|].
  destruct (String.eqb k k') eqn:E; [discriminate|]. simpl. intros H. rewrite IH; auto.
Qed.

Lemma existsb_json_is_str_In (n : string) (bs : list json) :
  existsb (json_is_str n) bs = false -> ~ In (JStr n) bs.
Proof.
  intros H Hin. assert (existsb (json_is_str n) bs = true) as H'.
  { apply existsb_exists. exists (JStr n). split; [exact Hin|]. apply String.eqb_refl. }
  congruence.
Qed.

Lemma append_new_nodup (bs : list json) (sel : list string) :
  NoDup bs -> NoDup (append_new bs sel).
Proof.
  unfold append_new. revert bs. induction sel as [|n sel IH]; intros bs H; simpl; [exact H|].
  apply IH. destruct (existsb (json_is_str n) bs) eqn:E; [exact H|].
  apply Permutation_NoDup with (l := JStr n :: bs).
  - apply Permutation_cons_append.
  - constructor; [apply existsb_json_is_str_In; exact E|exact H].
Qed.

Lemma bind_layers_nodup (st : state) (l r : dict) (source : string)
    (sel : list string) (st' : state) :
  layers_of (manifest st) = Some l -> dget l source = Some (JObj r) ->
  (forall bs, dget r "bindings" = Some (JArr bs) -> NoDup bs) ->
  bind_layers source sel st = Some st' ->
  exists r', layers_of (manifest st') = Some (dset l source (JObj r'))
    /\ forall bs', dget r' "bindings" = Some (JArr bs') -> NoDup bs'.
Proof.
  intros Hl Hr Hnd Hbind.
  unfold bind_layers in Hbind. rewrite Hl, Hr in Hbind. cbn -[dsetdefault filter] in Hbind.
  destruct (py_iter (dget_or r "bindings" (JArr []))) as [bound|]; [|discriminate].
  destruct (negb (forallb hashable bound)); [discriminate|].
  assert (Hsame : exists r', layers_of (manifest st) = Some (dset l source (JObj r'))
            /\ forall bs', dget r' "bindings" = Some (JArr bs') -> NoDup bs').
  { exists r. rewrite dset_dget_same by exact Hr. split; [exact Hl|exact Hnd]. }
  destruct (filter _ _) as [|a av]; [injection Hbind as <-; exact Hsame|].
  destruct sel as [|s0 sel]; [injection Hbind as <-; exact Hsame|].
  destruct (dget_or (dsetdefault r "bindings" (JArr [])) "bindings" (JArr [])) as
    [| | | | |bs|] eqn:G; try discriminate.
  injection Hbind as <-.
  eexists. split; [apply (layers_of_set_layers st l _ Hl)|].
  intros bs'. rewrite dget_dset_same. intros H; injection H as <-.
  assert (Hbs : NoDup bs).
  { unfold dget_or at 1 in G. rewrite dget_dsetdefault_same in G.
    unfold dget_or in G. destruct (dget r "bindings") as [j|] eqn:E.
    - apply Hnd. rewrite <- G. reflexivity.
    - injection G as <-. constructor. }
  exact (append_new_nodup bs (s0 :: sel) Hbs).
Qed.

(** C8: with no bindings on [source] (no key, or an empty list), binding an
    offered layer [c] and unbinding it again leaves [source]'s record
    without a [bindings] key (the very record it had, when it had no key);
    and binding any selection keeps a duplicate-free bindings list free of
    duplicates. *)
Theorem bind_unbind_normalizes (st : state) (l r : dict) (source c : string) :
  layers_of (manifest st) = Some l -> dget l source = Some (JObj r) ->
  In c (map fst l) -> c <> source ->
  (dget r "bindings" = None \/ dget r "bindings" = Some (JArr [])) ->
  (exists st1 st2,
     bind_layers source [c] st = Some st1
     /\ unbind_layers source [c] st1 = Some st2
     /\ layers_of (manifest st2) = Some (dset l source (JObj (ddel r "bindings")))
     /\ dget (ddel r "bindings") "bindings" = None
     /\ (dget r "bindings" = None -> ddel r "bindings" = r))
  /\ (forall st0 l0 r0 src sel st',
        layers_of (manifest st0) = Some l0 -> dget l0 src = Some (JObj r0) ->
        (forall bs, dget r0 "bindings" = Some (JArr bs) -> NoDup bs) ->
        bind_layers src sel st0 = Some st' ->
        exists r', layers_of (manifest st') = Some (dset l0 src (JObj r'))
          /\ forall bs', dget r' "bindings" = Some (JArr bs') -> NoDup bs').
Proof.
  intros Hl Hr Hc Hne Hb.
  assert (Hget : dget_or r "bindings" (JArr []) = JArr []).
  { unfold dget_or. destruct Hb as [-> | ->]; reflexivity. }
  assert (Hget1 : dget_or (dsetdefault r "bindings" (JArr [])) "bindings" (JArr []) = JArr []).
  { unfold dget_or at 1. rewrite dget_dsetdefault_same. exact Hget. }
  assert (Hav : exists a av, filter (fun n => negb (String.eqb n source)
                  && true) (map fst l) = a :: av).
  { destruct (filter _ (map fst l)) as [|a av] eqn:F; [|eauto].
    exfalso. assert (In c (filter (fun n => negb (String.eqb n source)
                  && true) (map fst l))) as Hin.
    { apply filter_In. split; [exact Hc|]. simpl.
      destruct (String.eqb c source) eqn:E; [apply String.eqb_eq in E; congruence|reflexivity]. }
    rewrite F in Hin. contradiction. }
  destruct Hav as [a [av Hav]].
  split.
  - set (r2 := dset (dsetdefault r "bindings" (JArr [])) "bindings" (JArr [JStr c])).
    set (l1 := dset l source (JObj r2)).
    exists (mark_dirty (set_layers st l1)).
    eexists. split.
    + unfold bind_layers. rewrite Hl, Hr. cbn -[dsetdefault filter]. rewrite Hget. cbn -[dsetdefault filter].
      rewrite Hav, Hget1. reflexivity.
    + split.
      * unfold unbind_layers. rewrite (layers_of_set_layers st l l1 Hl).
        unfold l1. rewrite dget_dset_same. cbn -[r2]. unfold dmem.
        unfold r2 at 1. rewrite dget_dset_same. cbn -[r2].
        unfold r2 at 1. rewrite dget_dset_same. cbn -[r2].
        rewrite String.eqb_refl. cbn -[r2]. reflexivity.
      * split; [|split].
        -- rewrite (layers_of_set_layers _ l1 _ (layers_of_set_layers st l l1 Hl)).
           unfold l1, r2. rewrite dset_dset_same, ddel_dset_same, ddel_dsetdefault_same.
           reflexivity.
        -- apply dget_ddel_same.
        -- apply ddel_absent.
  - intros st0 l0 r0 src sel st' Hl0 Hr0 Hnd Hbind.
    exact (bind_layers_nodup st0 l0 r0 src sel st' Hl0 Hr0 Hnd Hbind).
Qed.

(** Examples, as a scratch check of the migration scenario of the spec. *)
Example migrate_file_scenario :
  migrate_file ex_env [("a.json", JStr "a.png")] "a.json"
    (Some (JObj [("top_layer", JObj [("x", JInt 0); ("y", JInt 0);
                                      ("scale", JFloat (S754_finite false 1 1))])]))
  = FProcessed (JObj [("top_layer", JObj [("x", JInt 0); ("y", JInt 0);
       ("scale", JFloat (S754_finite false 1 1)); ("original_width", JInt 100);
       ("original_height", JInt 50); ("scaled_width", JInt 200);
       ("scaled_height", JInt 100)])]).
Proof. vm_compute. reflexivity. Qed.

Example spinbox_trunc_example :
  int_mul_float (JInt 5) (S754_finite false 3 (-2)) = Some 3
  /\ spec_round_scaled 5 (S754_finite false 3 (-2)) = Some 4.
Proof. vm_compute. split; reflexivity. Qed.

Lemma meta_lookup_write_same (md : meta_dir) (f : string) (c : option json) :
  meta_lookup (meta_write md f c) f = Some c.
Proof.
  induction md as [|[f' c'] md IH]; simpl.
  - rewrite String.eqb_refl. reflexivity.
  - destruct (String.eqb f f') eqn:E; simpl; rewrite E; [reflexivity|exact IH].
Qed.

(** C5 (counterexample): setting the scale spin box to 0.75 on a 5x5 layer
    stores [scaled_width = 3] ([int(3.75)]), not [round(5 * 0.75) = 4]. *)
Lemma scaled_width_truncated_not_rounded :
  exists st', update_metadata_from_spinboxes ex_env "a.png" 0 0 float_0_75 float_one ex_state
              = Some st'
    /\ stored_top_field st' "a.json" "scaled_width" = Some (JInt 3)
    /\ spec_round_scaled 5 float_0_75 = Some 4
    /\ stored_top_field st' "a.json" "scaled_width"
       <> option_map JInt (spec_round_scaled 5 float_0_75).
Proof.
  eexists. split; [vm_compute; reflexivity|].
  vm_compute. split; [reflexivity|]. split; [reflexivity|]. discriminate.
Qed.

(** C5 (amended): the spin-box update stores [scaled_width = int(original_width
    * scale)] and [scaled_height = int(original_height * scale)], the float
    product truncated toward zero; a migrated record gets the same with the
    image's size and its stored [scale] (1.0 when absent). *)
Theorem scaled_size_is_truncated_product (ev : env) (st : state) (l r md t : dict)
    (p name f : string) (x y ow oh sw sh : Z) (s o : spec_float) :
  project_path st = Some p -> name <> "" ->
  layers_of (manifest st) = Some l -> dget l name = Some (JObj r) ->
  dget r "metadata" = Some (JStr f) -> f <> "" ->
  meta_lookup (metadata st) f = Some (Some (JObj md)) ->
  dget md "top_layer" = Some (JObj t) ->
  dget t "original_width" = Some (JInt ow) -> dget t "original_height" = Some (JInt oh) ->
  write_ok ev = true ->
  int_of_float (fmul (float_of_int ow) s) = Some sw ->
  int_of_float (fmul (float_of_int oh) s) = Some sh ->
  (exists st', update_metadata_from_spinboxes ev name x y s o st = Some st'
     /\ stored_top_field st' f "scale" = Some (JFloat s)
     /\ stored_top_field st' f "scaled_width" = Some (JInt sw)
     /\ stored_top_field st' f "scaled_height" = Some (JInt sh))
  /\ (forall mmap mf c d, migrate_file ev mmap mf c = FProcessed d ->
        exists layer w h dd t0 sw' sh',
          dget mmap mf = Some (JStr layer) /\ pil_size ev layer = Some (w, h)
          /\ c = Some (JObj dd) /\ dget dd "top_layer" = Some (JObj t0)
          /\ int_mul w (dget_or t0 "scale" (JFloat float_one)) = Some sw'
          /\ int_mul h (dget_or t0 "scale" (JFloat float_one)) = Some sh'
          /\ top_field d "original_width" = Some (JInt w)
          /\ top_field d "original_height" = Some (JInt h)
          /\ top_field d "scaled_width" = Some (JInt sw')
          /\ top_field d "scaled_height" = Some (JInt sh')).
Proof.
  intros Hp Hn Hl Hr Hm Hf Hmd Ht Hw Hh Hok Hsw Hsh. split.
  - assert (HM : py_get (dget_or l name (JObj [])) "metadata" JNull = Some (JStr f)).
    { unfold dget_or. rewrite Hr. cbn [py_get]. unfold dget_or. rewrite Hm. reflexivity. }
    assert (HL : load_metadata_json_for_layer st name = Some (Some (JObj md))).
    { unfold load_metadata_json_for_layer. apply String.eqb_neq in Hn.
      rewrite Hn, Hp, Hl, HM. cbn [py_truthy]. apply String.eqb_neq in Hf.
      rewrite Hf. cbn [negb]. rewrite Hmd. reflexivity. }
    assert (HT : dget_or (dsetdefault md "top_layer" (JObj [])) "top_layer" (JObj []) = JObj t).
    { unfold dget_or at 1. rewrite dget_dsetdefault_same. unfold dget_or. rewrite Ht. reflexivity. }
    eexists. split.
    + unfold update_metadata_from_spinboxes. rewrite HL.
      destruct md as [|kv md']; [discriminate|]. cbn [py_truthy negb].
      assert (HW : forall a b c e, dget_or (dset (dset (dset (dset t "x" a) "y" b)
                     "scale" c) "opacity" e) "original_width" JNull = JInt ow).
      { intros. unfold dget_or. rewrite !dget_dset_other by discriminate. rewrite Hw. reflexivity. }
      assert (HH : forall a b c e, dget_or (dset (dset (dset (dset t "x" a) "y" b)
                     "scale" c) "opacity" e) "original_height" JNull = JInt oh).
      { intros. unfold dget_or. rewrite !dget_dset_other by discriminate. rewrite Hh. reflexivity. }
      rewrite HT, !HW, !HH. cbn [is_py_none orb int_mul_float]. rewrite Hsw, Hsh, Hl, HM.
      cbn [py_truthy]. apply String.eqb_neq in Hf. rewrite Hf. cbn [negb].
      rewrite Hok. reflexivity.
    + unfold stored_top_field, top_field. cbn [mark_dirty set_metadata metadata].
      rewrite meta_lookup_write_same. rewrite dget_dset_same.
      split; [|split].
      * rewrite !dget_dset_other by discriminate. apply dget_dset_same.
      * rewrite dget_dset_other by discriminate. apply dget_dset_same.
      * apply dget_dset_same.
  - intros mmap mf c d. unfold migrate_file.
    destruct c as [data|]; [|discriminate].
    destruct (py_in "top_layer" data) as [[|]|]; try discriminate.
    destruct (py_getitem data "top_layer") as [tl|] eqn:Gt; [|discriminate].
    destruct (py_in "original_width" tl) as [[|]|]; try discriminate.
    destruct (dget mmap mf) as [[| | | |layer| |]|] eqn:Gm; try discriminate.
    destruct (negb (layer_exists ev layer)); [discriminate|].
    destruct (pil_size ev layer) as [[w h]|] eqn:Gp; [|discriminate].
    destruct tl as [| | | | | |t0]; try discriminate.
    destruct data as [| | | | | |dd]; try discriminate.
    destruct (int_mul w _) as [sw'|] eqn:G1; [|discriminate].
    destruct (int_mul h _) as [sh'|] eqn:G2; [|discriminate].
    destruct (write_ok ev); [|discriminate].
    intros H; injection H as <-.
    exists layer, w, h, dd, t0, sw', sh'.
    cbn [py_getitem] in Gt. unfold top_field. rewrite dget_dset_same.
    repeat split; auto.
    + rewrite !dget_dset_other by discriminate. apply dget_dset_same.
    + rewrite !dget_dset_other by discriminate. apply dget_dset_same.
    + rewrite dget_dset_other by discriminate. apply dget_dset_same.
    + apply dget_dset_same.
Qed.

(** C6 (counterexample): re-adding [a.png] as a base layer, answering Yes to
    "Overwrite?", replaces its record by [base_layer_record]: the existing
    [metadata] field, which the new record does not supply, is gone. *)
Lemma base_add_replaces_record :
  exists st', add_layer_files ex_env (fun _ => true) (fun _ => true) ["/imgs/a.png"] true ex_state
              = (st', false)
    /\ layers_of (manifest ex_state) = Some [("a.png", JObj [("metadata", JStr "a.json")])]
    /\ layers_of (manifest st') = Some [("a.png", base_layer_record)]
    /\ py_getitem base_layer_record "metadata" = None.
Proof.
  eexists. split; [vm_compute; reflexivity|]. vm_compute. repeat split.
Qed.

(** C6 (amended): adding one layer file whose copy succeeds (no existing file,
    or Yes to "Overwrite?") stores, for a base layer, exactly
    [{"type": "base_layer", "offset": [0, 0]}] under its file name, replacing
    any existing record; for a regular layer it keeps an existing record
    unchanged and creates [{}] when there is none. The manifest is then dirty. *)
Theorem add_layer_files_store (ev : env) (copy_ok : string -> bool) (overwrite : nat -> bool)
    (st : state) (d l : dict) (path p : string) :
  project_path st = Some p -> manifest st = JObj d -> dget d "layers" = Some (JObj l) ->
  copy_ok path = true -> layer_exists ev (path_name path) = false \/ overwrite 0%nat = true ->
  let n := path_name path in
  add_layer_files ev copy_ok overwrite [path] true st
    = (mark_dirty (set_manifest st (JObj (dset d "layers" (JObj (dset l n base_layer_record))))), false)
  /\ add_layer_files ev copy_ok overwrite [path] false st
    = (mark_dirty (set_manifest st (JObj (dset d "layers" (JObj (dsetdefault l n (JObj [])))))), false)
  /\ dget (dset l n base_layer_record) n = Some base_layer_record
  /\ (forall r, dget l n = Some r -> dget (dsetdefault l n (JObj [])) n = Some r)
  /\ (dget l n = None -> dget (dsetdefault l n (JObj [])) n = Some (JObj [])).
Proof.
  intros Hp Hm Hl Hc Hask n.
  assert (Hq : (layer_exists ev n || existsb (String.eqb n) []) && negb (overwrite 0%nat) = false).
  { cbn [existsb]. rewrite orb_false_r. unfold n. destruct Hask as [E|E]; rewrite E;
    [reflexivity|apply andb_false_r]. }
  assert (Hlm : layers_of (manifest st) = Some l) by (rewrite Hm; cbn; rewrite Hl; reflexivity).
  split; [|split; [|split; [|split]]].
  - unfold add_layer_files. rewrite Hp. cbn [add_layer_loop]. fold n.
    rewrite Hq, Hc, Hlm. cbn [negb]. rewrite Hm. reflexivity.
  - unfold add_layer_files. rewrite Hp. cbn [add_layer_loop]. fold n.
    rewrite Hq, Hc, Hlm. cbn [negb]. rewrite Hm. reflexivity.
  - apply dget_dset_same.
  - intros r Hr. rewrite dget_dsetdefault_same. unfold dget_or. rewrite Hr. reflexivity.
  - intros Hr. rewrite dget_dsetdefault_same. unfold dget_or. rewrite Hr. reflexivity.
Qed.

(** C7 (counterexample): a failed load of a project whose [manifest.json] is
    not valid JSON leaves no project open, not the previously open one. *)
Lemma load_malformed_drops_previous_path :
  project_path ex_state = Some "proj"
  /\ load_project (Some None) true [] "other" ex_state = (set_project_path ex_state None, true)
  /\ project_path (fst (load_project (Some None) true [] "other" ex_state)) = None.
Proof. repeat split. Qed.

(** C7 (the code's behaviour): when [manifest.json] exists but is not valid
    JSON, loading shows an error dialog (nothing is raised to the caller),
    keeps the in-memory manifest, the dirty flag and the files, but sets the
    project path to [None] instead of restoring the previous one (with
    [layers/] present; without it nothing changes): the old manifest stays
    in memory with no project path to save it to. *)
Theorem load_malformed_manifest (st : state) (md : meta_dir) (path : string) (layers_dir : bool) :
  let '(st', shown) := load_project (Some None) layers_dir md path st in
  shown = true /\ manifest st' = manifest st /\ is_dirty st' = is_dirty st
  /\ metadata st' = metadata st /\ manifest_file st' = manifest_file st
  /\ project_path st' = (if layers_dir then None else project_path st).
Proof. destruct layers_dir; cbn; repeat split. Qed.

(** C9: with a project open, the autosave tick does nothing when the project
    is clean; when it is dirty it writes [manifest.json] and clears the flag
    if the write succeeds, and if the write raises the state, so the dirty
    flag, is unchanged and a later tick whose write succeeds saves it. *)
Theorem autosave_dirty_retry (ev ev' : env) (st : state) (p : string) :
  project_path st = Some p ->
  (is_dirty st = false -> auto_save_project ev st = (st, false))
  /\ (is_dirty st = true -> write_ok ev = true ->
       exists st', auto_save_project ev st = (st', false) /\ is_dirty st' = false
         /\ manifest_file st' = Some (manifest st) /\ manifest st' = manifest st)
  /\ (is_dirty st = true -> write_ok ev = false ->
       auto_save_project ev st = (st, true) /\ is_dirty st = true
       /\ (write_ok ev' = true ->
           exists st'', auto_save_project ev' st = (st'', false) /\ is_dirty st'' = false
             /\ manifest_file st'' = Some (manifest st))).
Proof.
  intros Hp. unfold auto_save_project, save_project, save_manifest. rewrite Hp.
  split; [|split].
  - intros Hd. rewrite Hd. reflexivity.
  - intros Hd Hw. rewrite Hd, Hw. eexists. repeat split.
  - intros Hd Hw. rewrite Hd, Hw. split; [reflexivity|split; [reflexivity|]].
    intros Hw'. rewrite Hw'. eexists. repeat split.
Qed.

(** C10: for a layer of the manifest whose image file is missing, when the
    metadata file can be written, [_create_and_assign_metadata] returns
    [<stem>.json], writes x = y = 0, scale = opacity = 1.0 and the four sizes
    0 to it, sets the layer's [metadata] field to that name and marks the
    project dirty. *)
Theorem create_metadata_missing_image (ev : env) (st : state) (l r : dict)
    (p layer_name : string) :
  project_path st = Some p -> layer_exists ev layer_name = false -> write_ok ev = true ->
  layers_of (manifest st) = Some l -> dget l layer_name = Some (JObj r) ->
  let f := (stem layer_name ++ ".json")%string in
  exists st', create_and_assign_metadata ev layer_name st = (st', PyRet (Some f))
    /\ meta_lookup (metadata st') f = Some (Some (default_metadata 0 0))
    /\ default_metadata 0 0
       = JObj [("top_layer", JObj [("x", JInt 0); ("y", JInt 0);
                                   ("scale", JFloat (S754_finite false 1 0));
                                   ("opacity", JFloat (S754_finite false 1 0));
                                   ("original_width", JInt 0); ("original_height", JInt 0);
                                   ("scaled_width", JInt 0); ("scaled_height", JInt 0)])]
    /\ layers_of (manifest st') = Some (dset l layer_name (JObj (dset r "metadata" (JStr f))))
    /\ is_dirty st' = true.
Proof.
  intros Hp He Hw Hl Hr f.
  unfold create_and_assign_metadata. rewrite Hp, He, Hw. cbn [negb].
  cbn [set_metadata manifest]. rewrite Hl, Hr. fold f.
  eexists. split; [reflexivity|]. split; [|split; [reflexivity|split]].
  - cbn [mark_dirty set_layers set_manifest metadata set_metadata].
    apply meta_lookup_write_same.
  - apply (layers_of_set_layers _ l). exact Hl.
  - reflexivity.
Qed.

(** ** Witnesses *)


Lemma cleanup_removes_missing_witness :
  exists st',
    cleanup_manifest ex_env_missing true ex_state2 = Some
      (filter (fun n => negb (layer_exists ex_env_missing n)) ["a.png"; "b.png"], st')
    /\ manifest st' = JObj [("layers", JObj [])]
    /\ metadata st' = metadata ex_state2
    /\ project_path st' = project_path ex_state2
    /\ manifest_file st' = manifest_file ex_state2.
Proof.
  apply (cleanup_removes_missing ex_env_missing ex_state2
           [("layers", JObj [("a.png", JObj [("metadata", JStr "a.json")]); ("b.png", JObj [])])]
           [("a.png", JObj [("metadata", JStr "a.json")]); ("b.png", JObj [])] "proj");
    reflexivity.
Defined.

Lemma migration_idempotent_witness :
  exists st1 st2 c1 c2,
    run_migration_script ex_env no_cancel ex_migr_state = Some (st1, c1)
    /\ run_migration_script ex_env no_cancel st1 = Some (st2, c2)
    /\ processed_count c1 = 1%nat /\ error_count c1 = 1%nat
    /\ processed_count c2 = 0%nat
    /\ skipped_count c2 = (skipped_count c1 + processed_count c1)%nat
    /\ error_count c2 = error_count c1.
Proof.
  do 4 eexists. split; [reflexivity|]. split; [reflexivity|].
  split; [reflexivity|]. split; [reflexivity|].
  eapply (migration_idempotent ex_env ex_migr_state); reflexivity.
Defined.

Lemma update_layer_type_base_invariant_witness :
  exists st', update_layer_type true "a.png" ex_state = Some st'
    /\ layers_of (manifest st') = Some [("a.png", JObj [("type", JStr "base_layer");
                                                        ("offset", JArr [JInt 0; JInt 0])])]
    /\ dget (layer_type_update true [("metadata", JStr "a.json")]) "metadata" = None.
Proof.
  destruct (proj1 (update_layer_type_base_invariant ex_state
                     [("a.png", JObj [("metadata", JStr "a.json")])]
                     [("metadata", JStr "a.json")] "a.png" eq_refl eq_refl))
    as [st' [H1 [H2 [_ [_ H5]]]]].
  exists st'. split; [exact H1|]. split; [|exact H5].
  rewrite H2. vm_compute. reflexivity.
Defined.

Lemma scaled_size_is_truncated_product_witness :
  exists st', update_metadata_from_spinboxes ex_env "a.png" 0 0 float_0_75 float_one ex_state
              = Some st'
    /\ stored_top_field st' "a.json" "scale" = Some (JFloat float_0_75)
    /\ stored_top_field st' "a.json" "scaled_width" = Some (JInt 3)
    /\ stored_top_field st' "a.json" "scaled_height" = Some (JInt 3).
Proof.
  refine (proj1 (scaled_size_is_truncated_product ex_env ex_state
            [("a.png", JObj [("metadata", JStr "a.json")])] [("metadata", JStr "a.json")]
            [("top_layer", JObj [("x", JInt 0); ("y", JInt 0); ("scale", JFloat float_one);
                                 ("opacity", JFloat float_one); ("original_width", JInt 5);
                                 ("original_height", JInt 5); ("scaled_width", JInt 5);
                                 ("scaled_height", JInt 5)])]
            [("x", JInt 0); ("y", JInt 0); ("scale", JFloat float_one);
             ("opacity", JFloat float_one); ("original_width", JInt 5);
             ("original_height", JInt 5); ("scaled_width", JInt 5); ("scaled_height", JInt 5)]
            "proj" "a.png" "a.json" 0 0 5 5 3 3 float_0_75 float_one
            _ _ _ _ _ _ _ _ _ _ _ _ _));
    first [vm_compute; reflexivity | discriminate].
Defined.

Lemma add_layer_files_store_witness :
  add_layer_files ex_env (fun _ => true) (fun _ => true) ["/imgs/a.png"] true ex_state
  = (mark_dirty (set_manifest ex_state
       (JObj [("layers", JObj [("a.png", base_layer_record)])])), false).
Proof.
  refine (proj1 (add_layer_files_store ex_env (fun _ => true) (fun _ => true) ex_state
            [("layers", JObj [("a.png", JObj [("metadata", JStr "a.json")])])]
            [("a.png", JObj [("metadata", JStr "a.json")])] "/imgs/a.png" "proj"
            eq_refl eq_refl eq_refl eq_refl (or_intror eq_refl))).
Defined.

Lemma bind_unbind_normalizes_witness :
  exists st1 st2,
    bind_layers "a.png" ["b.png"] ex_state2 = Some st1
    /\ unbind_layers "a.png" ["b.png"] st1 = Some st2
    /\ layers_of (manifest st2) = Some [("a.png", JObj [("metadata", JStr "a.json")]);
                                       ("b.png", JObj [])].
Proof.
  destruct (proj1 (bind_unbind_normalizes ex_state2
                     [("a.png", JObj [("metadata", JStr "a.json")]); ("b.png", JObj [])]
                     [("metadata", JStr "a.json")] "a.png" "b.png"
                     eq_refl eq_refl ltac:(simpl; auto) ltac:(discriminate)
                     (or_introl eq_refl)))
    as [st1 [st2 [H1 [H2 [H3 _]]]]].
  exists st1, st2. split; [exact H1|]. split; [exact H2|]. rewrite H3. reflexivity.
Defined.

Lemma autosave_dirty_retry_witness :
  auto_save_project ex_env_fail (mark_dirty ex_state) = (mark_dirty ex_state, true)
  /\ is_dirty (mark_dirty ex_state) = true.
Proof.
  destruct (proj2 (proj2 (autosave_dirty_retry ex_env_fail ex_env (mark_dirty ex_state) "proj"
                            eq_refl)) eq_refl eq_refl) as [H1 [H2 _]].
  split; assumption.
Defined.

Lemma create_metadata_missing_image_witness :
  exists st', create_and_assign_metadata ex_env_missing "a.png" ex_state
              = (st', PyRet (Some "a.json"))
    /\ meta_lookup (metadata st') "a.json" = Some (Some (default_metadata 0 0))
    /\ is_dirty st' = true.
Proof.
  destruct (create_metadata_missing_image ex_env_missing ex_state
              [("a.png", JObj [("metadata", JStr "a.json")])] [("metadata", JStr "a.json")]
              "proj" "a.png" eq_refl eq_refl eq_refl eq_refl eq_refl)
    as [st' [H1 [H2 [_ [_ H5]]]]].
  exists st'. split; [exact H1|]. split; [exact H2|exact H5].
Defined.

(** ** Further properties of the editor *)

Definition str_le (a b : string) : Prop := String.leb a b = true.

Lemma string_leb_trans (a b c : string) : str_le a b -> str_le b c -> str_le a c.
Proof.
  unfold str_le, String.leb. revert b c.
  induction a as [|x a IH]; intros [|y b] [|z c]; simpl; auto; try discriminate.
  unfold Ascii.compare.
  destruct (N.compare_spec (N_of_ascii x) (N_of_ascii y)) as [E1|E1|E1];
  destruct (N.compare_spec (N_of_ascii y) (N_of_ascii z)) as [E2|E2|E2];
    intros H1 H2; try discriminate.
  - rewrite E1, E2, N.compare_refl. exact (IH b c H1 H2).
  - rewrite E1. apply N.compare_lt_iff in E2. rewrite E2. reflexivity.
  - rewrite <- E2. apply N.compare_lt_iff in E1. rewrite E1. reflexivity.
  - assert (E : (N_of_ascii x < N_of_ascii z)%N) by (eapply N.lt_trans; eauto).
    apply N.compare_lt_iff in E. rewrite E. reflexivity.
Qed.

Lemma str_le_total (a b : string) : str_le a b \/ str_le b a.
Proof. apply String.leb_total. Qed.

Lemma insert_sorted_perm (x : string) (l : list string) :
  Permutation (insert_sorted x l) (x :: l).
Proof.
  induction l as [|y l IH]; simpl; [reflexivity|].
  destruct (String.leb x y); [reflexivity|].
  rewrite IH. apply perm_swap.
Qed.

Lemma sort_strings_perm (l : list string) : Permutation (sort_strings l) l.
Proof.
  induction l as [|x l IH]; simpl; [reflexivity|].
  rewrite insert_sorted_perm, IH. reflexivity.
Qed.

Lemma insert_sorted_hdrel (x y : string) (l : list string) :
  HdRel str_le y l -> str_le y x -> HdRel str_le y (insert_sorted x l).
Proof.
  destruct l as [|z l]; simpl; intros H Hyx; [constructor; exact Hyx|].
  destruct (String.leb x z); constructor; [exact Hyx|]. inversion H; assumption.
Qed.

Lemma insert_sorted_sorted (x : string) (l : list string) :
  Sorted str_le l -> Sorted str_le (insert_sorted x l).
Proof.
  induction l as [|y l IH]; simpl; intros H; [repeat constructor|].
  destruct (String.leb x y) eqn:E.
  - constructor; [exact H|]. constructor. exact E.
  - inversion H as [|? ? Hs Hh]; subst. constructor; [exact (IH Hs)|].
    apply insert_sorted_hdrel; [exact Hh|].
    destruct (str_le_total y x) as [G|G]; [exact G|]. unfold str_le in G. congruence.
Qed.

Lemma sort_strings_sorted (l : list string) : Sorted str_le (sort_strings l).
Proof.
  induction l as [|x l IH]; simpl; [constructor|]. apply insert_sorted_sorted, IH.
Qed.

Lemma strongly_sorted_filter {A : Type} (R : A -> A -> Prop) (f : A -> bool) (l : list A) :
  StronglySorted R l -> StronglySorted R (filter f l).
Proof.
  induction l as [|x l IH]; simpl; intros H; [constructor|].
  inversion H as [|? ? Hs Hf]; subst.
  destruct (f x); [|exact (IH Hs)]. constructor; [exact (IH Hs)|].
  rewrite Forall_forall in *. intros y Hy. apply filter_In in Hy. apply Hf, Hy.
Qed.

Lemma sorted_filter_sort (f : string -> bool) (l : list string) :
  Sorted str_le (filter f (sort_strings l)).
Proof.
  apply StronglySorted_Sorted, strongly_sorted_filter, Sorted_StronglySorted.
  - intros a b c. apply string_leb_trans.
  - apply sort_strings_sorted.
Qed.

Lemma get_prefix_for_layer_cases (l : dict) (n p : string) :
  get_prefix_for_layer l n = Some p -> p = "[B]" \/ p = "[M]" \/ p = "[X]".
Proof.
  unfold get_prefix_for_layer. destruct (py_get _ "type" JNull) as [t|]; [|discriminate].
  destruct (json_is_str "base_layer" t); [intros H; injection H; auto|].
  destruct (has_metadata_of _) as [[|]|]; intros H; injection H || discriminate H; auto.
Qed.

Lemma item_text_name (p n : string) :
  p = "[B]" \/ p = "[M]" \/ p = "[X]" ->
  get_layer_name_from_item (Some (p ++ " " ++ n)) = n.
Proof. intros [-> | [-> | ->]]; reflexivity. Qed.

Lemma populate_loop_spec (l : dict) (f : bool) (cur : string) (names : list string) :
  forall row found items fnd,
  populate_loop l f cur names row found = Some (items, fnd) ->
  let shown_names := filter (shown l f) names in
  map (fun t => get_layer_name_from_item (Some t)) items = shown_names
  /\ (fnd = found \/ exists i, fnd = Some (row + i)%nat /\ nth_error shown_names i = Some cur)
  /\ (In cur shown_names -> exists i, fnd = Some (row + i)%nat /\ nth_error shown_names i = Some cur).
Proof.
  induction names as [|name rest IH]; intros row found items fnd H; simpl in H.
  - injection H as <- <-. simpl. split; [reflexivity|]. split; [left; reflexivity|]. intros [].
  - destruct (dget l name) as [data|] eqn:Ed; [|discriminate].
    destruct (has_metadata_of data) as [hm|] eqn:Eh; [|discriminate].
    assert (Hs : shown l f name = negb f || negb hm) by (unfold shown; rewrite Ed, Eh; reflexivity).
    cbn zeta. simpl filter. rewrite Hs.
    destruct (negb f || negb hm).
    + destruct (get_prefix_for_layer l name) as [pre|] eqn:Ep; [|discriminate].
      destruct (populate_loop l f cur rest (S row) _) as [[items' fnd']|] eqn:Er; [|discriminate].
      injection H as <- <-. cbn [fst snd].
      destruct (IH _ _ _ _ Er) as [Hm [H2 H3]].
      split; [|split].
      * cbn [map]. change (String " "%char name) with (" " ++ name). rewrite item_text_name by (eapply get_prefix_for_layer_cases; eauto).
        f_equal. exact Hm.
      * destruct H2 as [->|[i [-> Hi]]].
        -- destruct (String.eqb name cur) eqn:Ec; [|left; reflexivity].
           right. exists 0%nat. apply String.eqb_eq in Ec. subst. rewrite Nat.add_0_r. auto.
        -- right. exists (S i). rewrite Nat.add_succ_r. auto.
      * intros Hin. destruct (in_dec string_dec cur (filter (shown l f) rest)) as [Hr|Hr].
        -- destruct (H3 Hr) as [i [-> Hi]]. exists (S i). rewrite Nat.add_succ_r. auto.
        -- destruct Hin as [<-|Hin]; [|contradiction].
           rewrite String.eqb_refl in H2. destruct H2 as [->|[i [-> Hi]]].
           ++ exists 0%nat. rewrite Nat.add_0_r. auto.
           ++ exfalso. apply Hr. eapply nth_error_In; eauto.
    + exact (IH _ _ _ _ H).
Qed.

(** The text [populate_layer_list] gives a layer's item, ["<prefix> <name>"],
    gives back the layer's name through [get_layer_name_from_item], also for
    names that contain spaces. *)
Theorem layer_item_name_roundtrip (l : dict) (name prefix : string) :
  get_prefix_for_layer l name = Some prefix ->
  get_layer_name_from_item (Some (prefix ++ " " ++ name)) = name.
Proof. intros H. apply item_text_name. eapply get_prefix_for_layer_cases; eauto. Qed.

(** [populate_layer_list] lists the layers in sorted order of their names,
    all of them with the filter off and those without a (truthy) metadata
    entry with it on; the previously current layer is current again when it
    is still listed, and a current row is set exactly when the list is not
    empty. *)
Theorem populate_layer_list_items (st : state) (d l : dict) (p : string) (filter_on : bool)
    (current : option string) (items : list string) (row : option nat) :
  project_path st = Some p -> manifest st = JObj d -> dget d "layers" = Some (JObj l) ->
  populate_layer_list st filter_on current = Some (items, row) ->
  let names := map (fun t => get_layer_name_from_item (Some t)) items in
  names = filter (shown l filter_on) (sort_strings (map fst l))
  /\ Sorted str_le names
  /\ (In (get_layer_name_from_item current) names ->
      exists i, row = Some i /\ nth_error names i = Some (get_layer_name_from_item current))
  /\ (row = None <-> names = []).
Proof.
  intros Hp Hm Hl H names. unfold populate_layer_list in H. rewrite Hp, Hm in H.
  cbn [py_get] in H. unfold dget_or at 1 in H. rewrite Hl in H.
  destruct (populate_loop l filter_on _ _ 0 None) as [[items' fnd]|] eqn:E; [|discriminate].
  injection H as <- <-. cbn [fst snd].
  destruct (populate_loop_spec _ _ _ _ _ _ _ _ E) as [H1 [H2 H3]].
  fold names in H1. subst names. rewrite H1.
  split; [reflexivity|]. split; [apply sorted_filter_sort|]. split.
  - intros Hin. destruct (H3 Hin) as [i [-> Hi]]. exists i. auto.
  - destruct H2 as [->|[i [-> Hi]]].
    + destruct items' as [|t items'']; simpl in H1 |- *; split; intros Hx; try discriminate; auto.
      rewrite <- H1 in Hx. discriminate.
    + split; intros Hx; [discriminate|]. rewrite Hx in Hi. destruct i; discriminate.
Qed.

(** The preview's stacking: z values of a list of items, strictly increasing
    and within [[a, b)]. *)
Definition in_zrange (a b : Z) (ops : list drawop) : Prop :=
  Sorted Z.lt (map op_z ops) /\ Forall (fun op => a <= op_z op < b) ops.

(** An item whose position takes the base offset [off] as its first summand. *)
Definition at_offset (off : json) (op : drawop) : Prop :=
  py_index off 0 = Some (fst (op_x op)) /\ py_index off 1 = Some (fst (op_y op)).

Lemma sorted_zlt_app (xs ys : list Z) :
  Sorted Z.lt xs -> Sorted Z.lt ys -> (forall x y, In x xs -> In y ys -> x < y) ->
  Sorted Z.lt (xs ++ ys).
Proof.
  induction xs as [|x xs IH]; intros Hx Hy H; [exact Hy|].
  simpl. apply Sorted_inv in Hx as [Hx Hh]. constructor.
  - apply IH; auto. intros a b Ha Hb; apply H; simpl; auto.
  - destruct xs as [|x2 xs]; simpl.
    + destruct ys as [|y ys]; constructor. apply H; simpl; auto.
    + inversion Hh; subst; constructor; assumption.
Qed.

Lemma in_zrange_app (a b c : Z) (l1 l2 : list drawop) :
  a <= b -> b <= c -> in_zrange a b l1 -> in_zrange b c l2 -> in_zrange a c (l1 ++ l2).
Proof.
  intros Hab Hbc [S1 F1] [S2 F2]. rewrite Forall_forall in F1, F2. split.
  - rewrite map_app. apply sorted_zlt_app; auto.
    intros x y Hx Hy. apply in_map_iff in Hx as [o1 [<- Ho1]].
    apply in_map_iff in Hy as [o2 [<- Ho2]].
    specialize (F1 o1 Ho1). specialize (F2 o2 Ho2). lia.
  - apply Forall_app. split; apply Forall_forall.
    + intros o Ho. specialize (F1 o Ho). lia.
    + intros o Ho. specialize (F2 o Ho). lia.
Qed.

Lemma in_zrange_weaken (a b a' b' : Z) (l : list drawop) :
  a' <= a -> b <= b' -> in_zrange a b l -> in_zrange a' b' l.
Proof.
  intros H1 H2 [S F]. split; [exact S|]. rewrite Forall_forall in *.
  intros o Ho. specialize (F o Ho). lia.
Qed.

Lemma in_zrange_nil (a b : Z) : in_zrange a b [].
Proof. split; constructor. Qed.

Lemma in_zrange_one (a : Z) (op : drawop) : op_z op = a -> in_zrange a (a + 1) [op].
Proof. intros H. split; repeat constructor; lia. Qed.

Lemma place_out (st : state) (n : string) (off : json) (z : Z) (op : drawop) :
  place st n off z = Some op -> op_img op = n /\ op_z op = z /\ at_offset off op.
Proof.
  unfold place, final_coord, at_offset. intros H.
  destruct (load_metadata_json_for_layer st n) as [md|]; [|discriminate H].
  destruct (meta_params md) as [[[[mx my] ms] mo]|]; [|discriminate H].
  cbv beta iota in H.
  destruct (py_index off 0) as [a|]; [|discriminate H].
  destruct (py_num a && py_num mx); [|discriminate H].
  destruct (py_index off 1) as [b|]; [|discriminate H].
  destruct (py_num b && py_num my); [|discriminate H].
  destruct (py_num ms && py_num mo); [|discriminate H].
  injection H as <-. simpl. auto.
Qed.

Lemma place_top_out (ev : env) (st : state) (n : string) (off : json) (z : Z) (op : drawop) :
  place_top ev st n off z = Some op -> op_img op = n /\ op_z op = z /\ at_offset off op.
Proof.
  unfold place_top, final_coord, at_offset. intros H.
  destruct (load_metadata_json_for_layer st n) as [md|]; [|discriminate H].
  destruct (meta_params md) as [[[[mx my] ms] mo]|]; [|discriminate H].
  cbv beta iota in H.
  destruct (py_index off 0) as [a|]; [|discriminate H].
  destruct (py_num a && py_num mx); [|discriminate H].
  destruct (py_index off 1) as [b|]; [|discriminate H].
  destruct (py_num b && py_num my); [|discriminate H].
  destruct (qpixmap_size ev n) as [w h]. cbv beta iota in H.
  destruct (qsize_dim w ms); [|discriminate H].
  destruct (qsize_dim h ms); [|discriminate H].
  destruct (py_num mo); [|discriminate H].
  injection H as <-. simpl. auto.
Qed.

Lemma render_bound_out (ev : env) (st : state) (off : json) (names : list json)
  (z z' : Z) (ops : list drawop) :
  render_bound ev st off names z = Some (ops, z') ->
  z <= z' /\ in_zrange z z' ops /\
  Forall (fun op => layer_exists ev (op_img op) = true /\ at_offset off op) ops.
Proof.
  revert z z' ops. induction names as [|j names IH]; intros z z' ops H; simpl in H.
  - injection H as <- <-. split; [lia|]. split; [apply in_zrange_nil | constructor].
  - destruct j as [| | | |n| |]; try discriminate.
    destruct (project_path st); [|discriminate].
    destruct (layer_exists ev n) eqn:Ex; [|exact (IH _ _ _ H)].
    destruct (place st n off z) as [op|] eqn:Hp; [|discriminate].
    destruct (render_bound ev st off names (z + 1)) as [[ops' z'']|] eqn:Hr; [|discriminate].
    simpl in H. injection H as <- <-.
    apply place_out in Hp as (Hi & Hz & Ho).
    destruct (IH _ _ _ Hr) as (Hle & Hrange & Hall).
    split; [lia|]. split.
    + change (op :: ops') with ([op] ++ ops')%list. apply (in_zrange_app z (z + 1)); try lia.
      * apply in_zrange_one, Hz.
      * exact Hrange.
    + constructor; [|exact Hall]. rewrite Hi. auto.
Qed.

Lemma render_bound_layers_for_out (ev : env) (st : state) (src : string) (off : json)
  (z z' : Z) (ops : list drawop) :
  render_bound_layers_for ev st src off z = Some (ops, z') ->
  z <= z' /\ in_zrange z z' ops /\
  Forall (fun op => layer_exists ev (op_img op) = true /\ at_offset off op) ops.
Proof.
  unfold render_bound_layers_for.
  destruct (layers_of (manifest st)) as [l|]; [|discriminate].
  destruct (py_get _ "bindings" _) as [b|]; [|discriminate].
  destruct (py_iter b) as [names|]; [|discriminate].
  apply render_bound_out.
Qed.

(** What [update_preview] draws: the base image at z 0 and position (0, 0),
    then items at increasing z placed from the base offset. *)
Lemma update_preview_out (ev : env) (st : state) (b t : string) (ops : list drawop) :
  update_preview ev st b t = Some ops ->
  exists l off, layers_of (manifest st) = Some l /\
    py_get (dget_or l b (JObj [])) "offset" (JArr [JInt 0; JInt 0]) = Some off /\
    Sorted Z.lt (map op_z ops) /\
    Forall (fun op => layer_exists ev (op_img op) = true) ops /\
    Forall (fun op => (op_z op = 0 /\ op_img op = b /\ op_x op = (JInt 0, JInt 0) /\
                       op_y op = (JInt 0, JInt 0)) \/ (0 < op_z op /\ at_offset off op)) ops.
Proof.
  unfold update_preview.
  destruct (layers_of (manifest st)) as [l|]; [|discriminate].
  destruct (py_get _ "offset" _) as [off|] eqn:Hoff; [|discriminate].
  destruct (if selected b then _ else Some []) as [base_ops|] eqn:HB0; [|discriminate].
  assert (HB : in_zrange 0 1 base_ops /\
    Forall (fun op => layer_exists ev (op_img op) = true /\ op_z op = 0 /\ op_img op = b /\
              op_x op = (JInt 0, JInt 0) /\ op_y op = (JInt 0, JInt 0)) base_ops).
  { destruct (selected b);
      [|injection HB0 as <-; split; [apply in_zrange_nil | constructor]].
    destruct (project_path st); [|discriminate].
    destruct (layer_exists ev b) eqn:E; injection HB0 as <-.
    - split; [apply in_zrange_one; reflexivity|].
      repeat constructor. exact E.
    - split; [apply in_zrange_nil | constructor]. }
  clear HB0.
  destruct (if selected t then _ else Some []) as [top_ops|] eqn:HT; [|discriminate].
  assert (HT' : in_zrange 1 2 top_ops /\
    Forall (fun op => layer_exists ev (op_img op) = true /\ at_offset off op) top_ops).
  { destruct (selected t);
      [|injection HT as <-; split; [apply in_zrange_nil | constructor]].
    destruct (project_path st); [|discriminate].
    destruct (layer_exists ev t) eqn:E;
      [|injection HT as <-; split; [apply in_zrange_nil | constructor]].
    destruct (place_top ev st t off (0 + 1)) as [op|] eqn:Hp; [|discriminate].
    injection HT as <-. apply place_top_out in Hp as (Hi & Hz & Ho).
    split; [apply in_zrange_one; exact Hz|].
    constructor; [split; [rewrite Hi; exact E | exact Ho] | constructor]. }
  clear HT.
  destruct (if selected t then _ else Some ([], 0 + 1)) as [[top_bound z1]|] eqn:H1;
    [|discriminate].
  assert (H1' : 2 <= z1 + 1 /\ in_zrange 2 (z1 + 1) top_bound /\
    Forall (fun op => layer_exists ev (op_img op) = true /\ at_offset off op) top_bound).
  { destruct (selected t).
    - apply render_bound_layers_for_out in H1 as (Hle & Hr & Hf).
      split; [lia|]. split; [|exact Hf]. apply (in_zrange_weaken 2 z1); [lia|lia|exact Hr].
    - injection H1 as <- <-. split; [lia|]. split; [apply in_zrange_nil | constructor]. }
  clear H1.
  destruct (if selected b then _ else Some ([], z1)) as [[bb z2]|] eqn:H2; [|discriminate].
  assert (H2' : exists z3, z1 + 1 <= z3 /\ in_zrange (z1 + 1) z3 bb /\
    Forall (fun op => layer_exists ev (op_img op) = true /\ at_offset off op) bb).
  { destruct (selected b).
    - apply render_bound_layers_for_out in H2 as (Hle & Hr & Hf). eauto.
    - injection H2 as <- <-. exists (z1 + 1). split; [lia|].
      split; [apply in_zrange_nil | constructor]. }
  clear H2. simpl. intros H. injection H as <-.
  destruct HB as [RB FB]. destruct HT' as [RT FT]. destruct H1' as (Hz1 & R1 & F1).
  destruct H2' as (z3 & Hz3 & R2 & F2).
  exists l, off. split; [reflexivity|]. split; [exact Hoff|]. split; [|split].
  - refine (proj1 (in_zrange_app 0 1 z3 _ _ _ _ RB
             (in_zrange_app 1 2 z3 _ _ _ _ RT (in_zrange_app 2 (z1 + 1) z3 _ _ _ _ R1 R2))));
      lia.
  - rewrite Forall_forall in FB, FT, F1, F2. rewrite !Forall_app.
    repeat split; apply Forall_forall; intros o Ho; [apply FB|apply FT|apply F1|apply F2]; exact Ho.
  - destruct RT as [_ RT]. destruct R1 as [_ R1]. destruct R2 as [_ R2].
    rewrite Forall_forall in FB, FT, F1, F2, RT, R1, R2. rewrite !Forall_app.
    repeat split; apply Forall_forall; intros o Ho.
    + left. apply FB, Ho.
    + right. split; [specialize (RT o Ho); lia | apply FT, Ho].
    + right. split; [specialize (R1 o Ho); lia | apply F1, Ho].
    + right. split; [specialize (R2 o Ho); lia | apply F2, Ho].
Qed.

Lemma layers_of_with_layers (m : json) (l l' : dict) :
  layers_of m = Some l -> layers_of (with_layers m l') = Some l'.
Proof.
  destruct m as [| | | | | |d]; simpl; try discriminate. intros _.
  rewrite dget_dset_same. reflexivity.
Qed.

Lemma json_is_str_base (r : dict) :
  json_is_str "base_layer" (dget_or r "type" JNull) = is_base_record r.
Proof.
  unfold dget_or, is_base_record.
  destruct (dget r "type") as [[| | | |t| |]|]; try reflexivity.
  exact (String.eqb_sym "base_layer" t).
Qed.

(** X: [update_preview] only draws images whose file exists under
    [layers/], and gives them strictly increasing z values in the order it
    sets them up. *)
Theorem update_preview_stacking (ev : env) (st : state) (b t : string) (ops : list drawop) :
  update_preview ev st b t = Some ops ->
  Sorted Z.lt (map op_z ops) /\ Forall (fun op => layer_exists ev (op_img op) = true) ops.
Proof.
  intros H. apply update_preview_out in H as (l & off & _ & _ & HS & HE & _). auto.
Qed.

(** X: in the preview, the item at z 0 is the base image at (0, 0); every
    other item (the top layer and all bound layers, also those of the top
    layer) is positioned from the base layer's offset. *)
Theorem update_preview_positions (ev : env) (st : state) (b t : string) (l : dict)
  (off : json) (ops : list drawop) :
  layers_of (manifest st) = Some l ->
  py_get (dget_or l b (JObj [])) "offset" (JArr [JInt 0; JInt 0]) = Some off ->
  update_preview ev st b t = Some ops ->
  Forall (fun op => (op_z op = 0 /\ op_img op = b /\ op_x op = (JInt 0, JInt 0) /\
                     op_y op = (JInt 0, JInt 0)) \/
                    (0 < op_z op /\ py_index off 0 = Some (fst (op_x op)) /\
                     py_index off 1 = Some (fst (op_y op)))) ops.
Proof.
  intros Hl Ho H. apply update_preview_out in H as (l' & off' & Hl' & Ho' & _ & _ & HF).
  rewrite Hl in Hl'. injection Hl' as <-. rewrite Ho in Ho'. injection Ho' as <-.
  exact HF.
Qed.

(** X: after [update_base_offset] sets the offset (x, y) of a base layer,
    the preview drawn with that layer as base puts every item other than the
    base image at x and y plus its metadata coordinate. *)
Theorem update_base_offset_preview (ev : env) (st st' : state) (b t : string) (x y : Z)
  (l : dict) (v : json) (ops : list drawop) :
  layers_of (manifest st) = Some l -> dget l b = Some v -> layer_is_base v = true ->
  update_base_offset b x y st = Some st' ->
  update_preview ev st' b t = Some ops ->
  Forall (fun op => 0 < op_z op -> fst (op_x op) = JInt x /\ fst (op_y op) = JInt y) ops.
Proof.
  intros Hl Hv Hb Hu Hp.
  destruct v as [| | | | | |r]; try discriminate. simpl in Hb.
  unfold update_base_offset in Hu. rewrite Hl, Hv in Hu. simpl in Hu.
  rewrite json_is_str_base, Hb in Hu. injection Hu as <-.
  apply update_preview_out in Hp as (l' & off & Hl' & Ho & _ & _ & HF).
  rewrite (layers_of_set_layers st l) in Hl' by exact Hl. injection Hl' as <-.
  unfold dget_or in Ho. rewrite dget_dset_same in Ho. simpl in Ho.
  unfold dget_or in Ho. rewrite dget_dset_same in Ho. injection Ho as <-.
  rewrite Forall_forall in *. intros op Hop Hz.
  destruct (HF op Hop) as [[Hz0 _] | [_ [H0 H1]]]; [lia|].
  simpl in H0, H1. injection H0 as <-. injection H1 as <-. auto.
Qed.

Lemma with_layers_twice (m : json) (l1 l2 : dict) :
  with_layers (with_layers m l1) l2 = with_layers m l2.
Proof. destruct m; simpl; try reflexivity. rewrite dset_dset_same. reflexivity. Qed.

Lemma with_layers_same (m : json) (l : dict) : layers_of m = Some l -> with_layers m l = m.
Proof.
  destruct m as [| | | | | |d]; simpl; try discriminate.
  destruct (dget d "layers") as [[| | | | | |l0]|] eqn:E; try discriminate.
  intros H. injection H as <-. rewrite dset_dget_same; [reflexivity | exact E].
Qed.

Lemma map_fst_ddel (l : dict) (k : string) :
  map fst (ddel l k) = filter (fun n => negb (String.eqb k n)) (map fst l).
Proof.
  unfold ddel. induction l as [|[k' v] l IH]; simpl; [reflexivity|].
  destruct (String.eqb k k'); simpl; rewrite IH; reflexivity.
Qed.

(** X: confirming [remove_layer] deletes the layer's record and nothing
    else: every other record, bindings that still name the removed layer
    included, is unchanged and the order of the layers is kept. *)
Theorem remove_layer_only_that_record (unlink_ok : string -> bool) (name : string)
  (st st' : state) (l : dict) :
  layers_of (manifest st) = Some l ->
  remove_layer unlink_ok true name st = (st', false) ->
  exists l', layers_of (manifest st') = Some l' /\ dget l' name = None /\
    (forall n, n <> name -> dget l' n = dget l n) /\
    map fst l' = filter (fun n => negb (String.eqb name n)) (map fst l) /\
    is_dirty st' = true.
Proof.
  intros Hl H. unfold remove_layer in H. rewrite Hl in H. simpl in H.
  destruct (project_path st); [|discriminate].
  destruct (unlink_ok name); [|discriminate]. injection H as <-.
  exists (ddel l name). split; [exact (layers_of_set_layers st l _ Hl)|].
  split; [apply dget_ddel_same|]. split; [intros n Hn; apply dget_ddel_other, Hn|].
  split; [apply map_fst_ddel | reflexivity].
Qed.

(** X: when deleting the layer's file raises, [remove_layer] has already
    removed the record from the manifest but has not marked the project
    dirty. *)
Theorem remove_layer_unlink_error (unlink_ok : string -> bool) (name p : string)
  (st : state) (l : dict) :
  project_path st = Some p -> layers_of (manifest st) = Some l -> unlink_ok name = false ->
  exists st', remove_layer unlink_ok true name st = (st', true) /\
    layers_of (manifest st') = Some (ddel l name) /\ is_dirty st' = is_dirty st.
Proof.
  intros Hp Hl Hu. unfold remove_layer. rewrite Hl. simpl. rewrite Hp, Hu.
  eexists. split; [reflexivity|]. split; [exact (layers_of_with_layers _ l _ Hl)|reflexivity].
Qed.

(** X: creating default metadata for a layer that had none and then
    clearing it gives back the manifest as it was; the metadata file written
    stays in [metadata/] and the project stays dirty. *)
Theorem create_then_clear_metadata (ev : env) (n f : string) (st st1 : state)
  (l r : dict) :
  layers_of (manifest st) = Some l -> dget l n = Some (JObj r) -> dmem r "metadata" = false ->
  create_and_assign_metadata ev n st = (st1, PyRet (Some f)) ->
  exists st2, clear_metadata n st1 = Some st2 /\ manifest st2 = manifest st /\
    (exists c, meta_lookup (metadata st2) f = Some (Some c)) /\ is_dirty st2 = true.
Proof.
  intros Hl Hr Hm H. unfold create_and_assign_metadata in H.
  destruct (project_path st); [|discriminate].
  destruct (if layer_exists ev n then qpixmap_size ev n else (0, 0)) as [w h].
  destruct (write_ok ev); simpl in H; [|discriminate].
  rewrite Hl, Hr in H. injection H as <- <-.
  set (md := meta_write (metadata st) (stem n ++ ".json") (Some (default_metadata w h))).
  assert (Hl1 : layers_of (manifest (set_metadata st md)) = Some l) by exact Hl.
  unfold clear_metadata. rewrite (layers_of_set_layers _ l _ Hl1), dget_dset_same.
  simpl. rewrite dmem_dset_same. simpl. eexists. split; [reflexivity|].
  rewrite ddel_dset_same, ddel_absent
    by (unfold dmem in Hm; destruct (dget r "metadata"); [discriminate|reflexivity]).
  rewrite dset_dset_same, (dset_dget_same l n _ Hr). split; [|split].
  - simpl. rewrite with_layers_twice. apply with_layers_same, Hl.
  - exists (default_metadata w h). apply meta_lookup_write_same.
  - reflexivity.
Qed.

(** X: [closeEvent] accepts the close only when there are no unsaved
    changes, when the user discards them, or when saving succeeded: then
    [manifest.json] holds the manifest and the project is clean. *)
Theorem close_event_accepts (ev : env) (reply : save_reply) (st st' : state) :
  close_event ev reply st = (st', PyRet true) ->
  (is_dirty st = false /\ st' = st) \/ (reply = RDiscard /\ st' = st) \/
  (reply = RSave /\ is_dirty st' = false /\ manifest st' = manifest st /\
   manifest_file st' = Some (manifest st)).
Proof.
  unfold close_event, prompt_save_if_dirty.
  destruct (is_dirty st) eqn:Ed; simpl.
  - destruct reply; intros H.
    + right; right. unfold save_project, save_manifest in H.
      destruct (project_path st); [|discriminate].
      destruct (write_ok ev); [|discriminate]. injection H as <-. auto.
    + right; left. injection H as <-. auto.
    + discriminate.
  - intros H. injection H as <-. auto.
Qed.

(** X: [new_project] in an empty directory, with no unsaved changes or
    with them discarded, opens a clean project at that path whose manifest
    is [{"layers": {}}], already written to [manifest.json], with no
    metadata. *)
Theorem new_project_fresh (ev : env) (reply : save_reply) (path : string) (st : state) :
  (is_dirty st = false \/ reply = RDiscard) -> write_ok ev = true -> path <> "" ->
  exists st', new_project ev reply path true st = (st', PyRet tt) /\
    project_path st' = Some path /\ manifest st' = JObj [("layers", JObj [])] /\
    is_dirty st' = false /\ metadata st' = [] /\ manifest_file st' = Some (manifest st').
Proof.
  intros Hd Hw Hp. apply String.eqb_neq in Hp.
  assert (Hprompt : prompt_save_if_dirty ev reply st = (st, PyRet true)).
  { unfold prompt_save_if_dirty. destruct Hd as [Hd | ->]; [rewrite Hd; reflexivity|].
    destruct (is_dirty st); reflexivity. }
  unfold new_project. rewrite Hprompt, Hp. simpl. rewrite Hw. simpl.
  unfold save_manifest. simpl. rewrite Hw. simpl.
  eexists. repeat split.
Qed.

(** X: saving and then loading the project again gives back the manifest,
    the path and the metadata, with no unsaved changes. *)
Theorem save_then_load_roundtrip (ev : env) (st st1 : state) (p : string) (d : dict) :
  project_path st = Some p -> manifest st = JObj d -> dmem d "layers" = true ->
  save_project ev st = (st1, false) ->
  exists st2, load_project (Some (manifest_file st1)) true (metadata st) p st1 = (st2, false) /\
    manifest st2 = manifest st /\ is_dirty st2 = false /\ project_path st2 = Some p /\
    metadata st2 = metadata st.
Proof.
  intros Hp Hm Hl H. unfold save_project, save_manifest in H. rewrite Hp in H.
  destruct (write_ok ev); [|discriminate]. injection H as <-.
  simpl. rewrite Hm. unfold dsetdefault. rewrite Hl.
  eexists. repeat split.
Qed.

(** X: saving valid JSON from the metadata editor writes it to the layer's
    metadata file, so loading the layer's metadata gives it back; the
    manifest is unchanged and the project is marked dirty. *)
Theorem save_metadata_editor_roundtrip (ev : env) (st : state) (n f p : string) (c : json)
  (l r : dict) :
  n <> "" -> project_path st = Some p -> write_ok ev = true ->
  layers_of (manifest st) = Some l -> dget l n = Some (JObj r) ->
  dget r "metadata" = Some (JStr f) -> f <> "" ->
  exists st', save_metadata_from_editor ev n (Some c) st = Some st' /\
    load_metadata_json_for_layer st' n = Some (Some c) /\ manifest st' = manifest st /\
    is_dirty st' = true.
Proof.
  intros Hn Hp Hw Hl Hd Hr Hf. apply String.eqb_neq in Hn, Hf.
  unfold save_metadata_from_editor. rewrite Hl. unfold dget_or at 1. rewrite Hd. simpl.
  unfold dget_or. rewrite Hr. simpl. rewrite Hf, Hp, Hw. simpl.
  eexists. split; [reflexivity|]. split; [|split; reflexivity].
  unfold load_metadata_json_for_layer. simpl. rewrite Hn, Hp, Hl. unfold dget_or at 1.
  rewrite Hd. simpl. unfold dget_or. rewrite Hr. simpl. rewrite Hf.
  rewrite meta_lookup_write_same. reflexivity.
Qed.

(** X: with editor text that is not valid JSON, [save_metadata_from_editor]
    writes nothing and does not mark the project dirty. *)
Theorem save_metadata_editor_invalid (ev : env) (n : string) (st st' : state) :
  save_metadata_from_editor ev n None st = Some st' -> st' = st.
Proof.
  unfold save_metadata_from_editor.
  destruct (layers_of (manifest st)); [|discriminate].
  destruct (py_get _ "metadata" JNull) as [mf|]; [|discriminate].
  destruct (py_truthy mf); simpl; [|congruence].
  destruct mf; try discriminate. destruct (project_path st); [|discriminate]. congruence.
Qed.

(** *** Preview combo boxes *)

Lemma split_by_type_spec (l : dict) (bs ts : list string) :
  split_by_type l = Some (bs, ts) ->
  Permutation (bs ++ ts) (map fst l) /\
  (forall n, In n bs -> exists v, In (n, v) l /\ layer_is_base v = true) /\
  (forall n, In n ts -> exists v, In (n, v) l /\ layer_is_base v = false).
Proof.
  revert bs ts. induction l as [|[n d] l IH]; intros bs ts H; simpl in H.
  - injection H as <- <-. repeat split; simpl; try constructor; intros ? [].
  - destruct (py_get d "type" JNull) as [t|] eqn:Ht; [|discriminate].
    destruct (split_by_type l) as [[bs' ts']|]; [|discriminate].
    destruct (IH bs' ts' eq_refl) as (HP & HB & HT).
    destruct d as [| | | | | |r]; try discriminate. simpl in Ht. injection Ht as <-.
    rewrite json_is_str_base in H. simpl in H.
    destruct (is_base_record r) eqn:Eb; injection H as <- <-.
    + split; [simpl; constructor; exact HP|]. split.
      * intros m [<- | Hm]; [exists (JObj r); simpl; auto|].
        destruct (HB m Hm) as [v [Hv Hb]]. exists v. simpl; auto.
      * intros m Hm. destruct (HT m Hm) as [v [Hv Hb]]. exists v. simpl; auto.
    + split.
      { simpl. rewrite <- Permutation_middle. constructor. exact HP. }
      split.
      * intros m Hm. destruct (HB m Hm) as [v [Hv Hb]]. exists v. simpl; auto.
      * intros m [<- | Hm]; [exists (JObj r); simpl; auto|].
        destruct (HT m Hm) as [v [Hv Hb]]. exists v. simpl; auto.
Qed.

Lemma existsb_eqb_In (x : string) (l : list string) : existsb (String.eqb x) l = true <-> In x l.
Proof.
  rewrite existsb_exists. split.
  - intros [y [Hy E]]. apply String.eqb_eq in E. subst. exact Hy.
  - intros H. exists x. split; [exact H | apply String.eqb_refl].
Qed.

Lemma kept_text (x : string) (l : list string) :
  (In x l -> (if existsb (String.eqb x) l then x else "<None>") = x) /\
  (~ In x l -> (if existsb (String.eqb x) l then x else "<None>") = "<None>").
Proof.
  split; intros H.
  - apply existsb_eqb_In in H. rewrite H. reflexivity.
  - destruct (existsb (String.eqb x) l) eqn:E; [|reflexivity].
    apply existsb_eqb_In in E. contradiction.
Qed.

(** X: [populate_combo_boxes] offers each layer in exactly one of the two
    preview combo boxes, base layers in the first and all others in the
    second, each sorted after a leading ["<None>"]; a combo box keeps its
    text when it is still an item and shows ["<None>"] otherwise. *)
Theorem populate_combo_boxes_partition (st : state) (d l : dict) (bt tt : string)
  (bi ti : list string) (bsel tsel : string) :
  manifest st = JObj d -> dget d "layers" = Some (JObj l) ->
  populate_combo_boxes st bt tt = Some ((bi, bsel), (ti, tsel)) ->
  exists bs ts, bi = "<None>" :: bs /\ ti = "<None>" :: ts /\
    Permutation (bs ++ ts) (map fst l) /\ Sorted str_le bs /\ Sorted str_le ts /\
    (forall n, In n bs -> exists v, In (n, v) l /\ layer_is_base v = true) /\
    (forall n, In n ts -> exists v, In (n, v) l /\ layer_is_base v = false) /\
    (In bt bi -> bsel = bt) /\ (~ In bt bi -> bsel = "<None>") /\
    (In tt ti -> tsel = tt) /\ (~ In tt ti -> tsel = "<None>").
Proof.
  intros Hm Hd H. unfold populate_combo_boxes, py_get in H. rewrite Hm in H.
  cbv beta iota in H. unfold dget_or in H. rewrite Hd in H. cbv beta iota in H.
  destruct (split_by_type l) as [[bs0 ts0]|] eqn:Hs; [|discriminate]. cbv beta iota in H.
  injection H as <- <- <- <-.
  destruct (split_by_type_spec l bs0 ts0 Hs) as (HP & HB & HT).
  exists (sort_strings bs0), (sort_strings ts0).
  split; [reflexivity|]. split; [reflexivity|]. split.
  { rewrite (Permutation_app (sort_strings_perm bs0) (sort_strings_perm ts0)). exact HP. }
  split; [apply sort_strings_sorted|]. split; [apply sort_strings_sorted|].
  split.
  { intros n Hn. apply HB. apply (Permutation_in _ (sort_strings_perm bs0)), Hn. }
  split.
  { intros n Hn. apply HT. apply (Permutation_in _ (sort_strings_perm ts0)), Hn. }
  destruct (kept_text bt ("<None>" :: sort_strings bs0)) as [K1 K2].
  destruct (kept_text tt ("<None>" :: sort_strings ts0)) as [K3 K4].
  auto.
Qed.

(** *** Importing metadata *)

Lemma basename_map_fold (names : list string) (acc : dict) (acco : option string) (s : string) :
  dget acc s = option_map JStr acco ->
  dget (fold_left (fun acc name => dset acc (stem name) (JStr name)) names acc) s
  = option_map JStr (fold_left (fun acc n => if String.eqb (stem n) s then Some n else acc)
                       names acco).
Proof.
  revert acc acco. induction names as [|n names IH]; intros acc acco H; simpl; [exact H|].
  apply IH. destruct (String.eqb (stem n) s) eqn:E.
  - apply String.eqb_eq in E. subst. apply dget_dset_same.
  - apply String.eqb_neq in E. rewrite dget_dset_other by congruence. exact H.
Qed.

Lemma dget_layer_basename_map (names : list string) (s : string) :
  dget (layer_basename_map names) s = option_map JStr (last_with_stem names s).
Proof. apply basename_map_fold. reflexivity. Qed.

Lemma last_with_stem_fold (names : list string) (s n : string) (acc : option string) :
  fold_left (fun acc n => if String.eqb (stem n) s then Some n else acc) names acc = Some n ->
  acc = Some n \/ In n names.
Proof.
  revert acc. induction names as [|x names IH]; intros acc H; simpl in H; [auto|].
  destruct (IH _ H) as [E | E]; [|simpl; auto].
  destruct (String.eqb (stem x) s); [injection E as ->; simpl; auto | auto].
Qed.

Lemma last_with_stem_In (names : list string) (s n : string) :
  last_with_stem names s = Some n -> In n names.
Proof. intros H. destruct (last_with_stem_fold names s n None H) as [E|E]; [discriminate|exact E]. Qed.

Lemma str_list_keys (l : dict) : str_list (map (fun kv => JStr (fst kv)) l) = Some (map fst l).
Proof. induction l as [|[k v] l IH]; simpl; [reflexivity|]. rewrite IH. reflexivity. Qed.

Lemma layer_names_of_layers (m : json) (l : dict) :
  layers_of m = Some l -> layer_names_of m = Some (map fst l).
Proof.
  destruct m as [| | | | | |d]; simpl; try discriminate.
  destruct (dget d "layers") as [[| | | | | |l0]|]; try discriminate.
  intros H. injection H as <-. simpl. apply str_list_keys.
Qed.

Lemma dget_in_keys (l : dict) (n : string) : In n (map fst l) -> exists v, dget l n = Some v.
Proof.
  induction l as [|[k v] l IH]; simpl; [intros []|]. intros H.
  destruct (String.eqb n k) eqn:E; [eauto|]. apply IH. destruct H as [<- | H]; [|exact H].
  rewrite String.eqb_refl in E. discriminate.
Qed.

Lemma map_fst_dset_in (l : dict) (n : string) (v : json) :
  In n (map fst l) -> map fst (dset l n v) = map fst l.
Proof.
  induction l as [|[k w] l IH]; simpl; [intros []|]. intros H.
  destruct (String.eqb n k) eqn:E; simpl; [reflexivity|]. rewrite IH; [reflexivity|].
  destruct H as [<- | H]; [|exact H]. rewrite String.eqb_refl in E. discriminate.
Qed.

(** Every record of the layers dict is a dict. *)
Definition all_dicts (l : dict) : Prop := forall k v, dget l k = Some v -> exists r, v = JObj r.

Lemma all_dicts_dset (l : dict) (n : string) (r : dict) :
  all_dicts l -> all_dicts (dset l n (JObj r)).
Proof.
  intros H k v Hk. destruct (String.eqb_spec k n) as [-> | Hne].
  - rewrite dget_dset_same in Hk. injection Hk as <-. eauto.
  - rewrite dget_dset_other in Hk by exact Hne. exact (H k v Hk).
Qed.

(** Whether a chosen file's stem is the stem of a layer. *)
Definition import_match (names : list string) (p : string) : bool :=
  match last_with_stem names (stem p) with Some _ => true | None => false end.

Lemma import_loop_report (copy_ok : string -> bool) (src : string -> option json)
  (names paths : list string) (st : state) (m : nat) (u : list string) (l : dict) :
  layers_of (manifest st) = Some l -> map fst l = names -> all_dicts l ->
  (forall p, In p paths -> copy_ok p = true) ->
  exists st', import_loop copy_ok src (layer_basename_map names) paths st m u
     = (st', PyRet ((m + List.length (filter (import_match names) paths))%nat,
                    (u ++ map path_name (filter (fun p => negb (import_match names p)) paths))%list))
   /\ (exists l', layers_of (manifest st') = Some l' /\ map fst l' = names /\ all_dicts l')
   /\ is_dirty st' = is_dirty st.
Proof.
  revert st m u l. induction paths as [|p paths IH]; intros st m u l Hl Hn Hd Hc; simpl.
  - exists st. rewrite Nat.add_0_r, app_nil_r. split; [reflexivity|]. split; [eauto|reflexivity].
  - rewrite dget_layer_basename_map.
    destruct (last_with_stem names (stem p)) as [n|] eqn:Hs; simpl.
    + assert (Hm : import_match names p = true) by (unfold import_match; rewrite Hs; reflexivity).
      rewrite Hm, (Hc p (or_introl eq_refl)). simpl.
      set (st1 := set_metadata st (meta_write (metadata st) (path_name p) (src p))).
      assert (Hl1 : layers_of (manifest st1) = Some l) by exact Hl. rewrite Hl.
      assert (Hin : In n (map fst l)) by (rewrite Hn; eapply last_with_stem_In; eauto).
      destruct (dget_in_keys l n Hin) as [v Hv]. destruct (Hd n v Hv) as [r ->]. rewrite Hv.
      destruct (IH (set_layers st1 (dset l n (JObj (dset r "metadata" (JStr (path_name p))))))
                   (S m) u (dset l n (JObj (dset r "metadata" (JStr (path_name p))))))
        as (st' & Heq & Hrest & Hdirty).
      * exact (layers_of_with_layers _ l _ Hl1).
      * rewrite map_fst_dset_in by exact Hin. exact Hn.
      * apply all_dicts_dset, Hd.
      * intros q Hq. apply Hc. simpl; auto.
      * exists st'. rewrite Heq, Nat.add_succ_r. split; [reflexivity|]. split; [exact Hrest|].
        exact Hdirty.
    + assert (Hm : import_match names p = false) by (unfold import_match; rewrite Hs; reflexivity).
      rewrite Hm. simpl.
      destruct (IH st m (u ++ [path_name p])%list l Hl Hn Hd) as (st' & Heq & Hrest & Hdirty).
      { intros q Hq. apply Hc. simpl; auto. }
      exists st'. rewrite Heq, <- app_assoc. split; [reflexivity|]. auto.
Qed.

Lemma ltb_length_filter {A : Type} (f : A -> bool) (l : list A) :
  Nat.ltb 0 (List.length (filter f l)) = existsb f l.
Proof.
  induction l as [|x l IH]; simpl; [reflexivity|]. destruct (f x); simpl; [reflexivity|exact IH].
Qed.

(** X: [import_metadata] with files that can all be copied reports as
    imported the number of files whose stem is the stem of a layer, and
    lists the names of the others; it adds or removes no layer, and marks
    the project dirty exactly when a file was imported (or it was dirty
    already). *)
Theorem import_metadata_report (ev : env) (copy_ok : string -> bool) (src : string -> option json)
  (paths : list string) (st : state) (l : dict) (pp : string) :
  project_path st = Some pp -> write_ok ev = true -> layers_of (manifest st) = Some l ->
  all_dicts l -> paths <> [] -> (forall p, In p paths -> copy_ok p = true) ->
  exists st', import_metadata ev copy_ok src paths st
    = (st', PyRet (Some (List.length (filter (import_match (map fst l)) paths),
                         map path_name (filter (fun p => negb (import_match (map fst l) p)) paths))))
    /\ (exists l', layers_of (manifest st') = Some l' /\ map fst l' = map fst l)
    /\ is_dirty st' = is_dirty st || existsb (import_match (map fst l)) paths.
Proof.
  intros Hp Hw Hl Hd Hne Hc. unfold import_metadata. rewrite Hp.
  destruct paths as [|p0 ps]; [congruence|]. rewrite Hw. cbn [negb].
  rewrite (layer_names_of_layers _ l Hl).
  destruct (import_loop_report copy_ok src (map fst l) (p0 :: ps) st 0 [] l Hl eq_refl Hd Hc)
    as (st' & Heq & (l' & Hl' & Hn' & _) & Hdirty).
  rewrite Heq. cbv beta iota. rewrite Nat.add_0_l, app_nil_l, ltb_length_filter.
  destruct (existsb (import_match (map fst l)) (p0 :: ps)).
  - eexists. split; [reflexivity|]. split; [eauto|]. simpl. rewrite orb_true_r. reflexivity.
  - eexists. split; [reflexivity|]. split; [eauto|]. rewrite orb_false_r. exact Hdirty.
Qed.

(** X: a chosen metadata file is assigned to the layer with the same stem;
    when two layers share that stem, to the later one in manifest order.
    The file is copied into [metadata/] under its own name and the project
    is marked dirty. *)
Theorem import_metadata_assigns_last (ev : env) (copy_ok : string -> bool)
  (src : string -> option json) (p pp n : string) (st : state) (l r : dict) :
  project_path st = Some pp -> write_ok ev = true -> copy_ok p = true ->
  layers_of (manifest st) = Some l -> last_with_stem (map fst l) (stem p) = Some n ->
  dget l n = Some (JObj r) ->
  exists st', import_metadata ev copy_ok src [p] st = (st', PyRet (Some (1%nat, []))) /\
    layers_of (manifest st') = Some (dset l n (JObj (dset r "metadata" (JStr (path_name p))))) /\
    meta_lookup (metadata st') (path_name p) = Some (src p) /\ is_dirty st' = true.
Proof.
  intros Hp Hw Hc Hl Hs Hr. unfold import_metadata. rewrite Hp, Hw. simpl.
  rewrite (layer_names_of_layers _ l Hl). simpl. rewrite dget_layer_basename_map, Hs. simpl.
  rewrite Hc. simpl.
  set (st1 := set_metadata st (meta_write (metadata st) (path_name p) (src p))).
  assert (Hl1 : layers_of (manifest st1) = Some l) by exact Hl. rewrite Hl, Hr. simpl.
  eexists. split; [reflexivity|]. split; [exact (layers_of_with_layers _ l _ Hl1)|].
  split; [apply meta_lookup_write_same | reflexivity].
Qed.

(** *** Bindings *)

Lemma append_new_ext (bs : list json) (sel : list string) :
  exists ext, append_new bs sel = (bs ++ ext)%list /\
    Forall (fun x => exists n, In n sel /\ x = JStr n /\ ~ In x bs) ext.
Proof.
  unfold append_new. revert bs. induction sel as [|n sel IH]; intros bs; simpl.
  - exists []. rewrite app_nil_r. split; [reflexivity | constructor].
  - destruct (existsb (json_is_str n) bs) eqn:E.
    + destruct (IH bs) as [ext [Heq Hf]]. exists ext. split; [exact Heq|].
      eapply Forall_impl; [|exact Hf]. intros x (m & Hm & Hx & Hn). exists m. auto.
    + destruct (IH (bs ++ [JStr n])%list) as [ext [Heq Hf]].
      exists (JStr n :: ext). rewrite Heq, <- app_assoc. split; [reflexivity|].
      constructor.
      * exists n. split; [auto|]. split; [reflexivity|]. apply existsb_json_is_str_In, E.
      * eapply Forall_impl; [|exact Hf]. intros x (m & Hm & Hx & Hn). exists m.
        split; [auto|]. split; [exact Hx|]. intros Hin. apply Hn, in_or_app. auto.
Qed.

Lemma dset_dsetdefault (d : dict) (k : string) (v w : json) :
  dset (dsetdefault d k v) k w = dset d k w.
Proof. unfold dsetdefault. destruct (dmem d k); [reflexivity|]. apply dset_dset_same. Qed.

(** X: [bind_layers] keeps the layer's existing bindings in order and only
    appends selected names that were not bound yet; nothing else of the
    layer's record changes. *)
Theorem bind_layers_appends (source : string) (sel : list string) (st st' : state)
  (l r : dict) (bs : list json) :
  layers_of (manifest st) = Some l -> dget l source = Some (JObj r) ->
  dget_or r "bindings" (JArr []) = JArr bs ->
  bind_layers source sel st = Some st' ->
  st' = st \/
  exists ext, layers_of (manifest st') =
      Some (dset l source (JObj (dset r "bindings" (JArr (bs ++ ext)%list)))) /\
    Forall (fun x => exists n, In n sel /\ x = JStr n /\ ~ In x bs) ext.
Proof.
  intros Hl Hd Hb H. unfold bind_layers in H. rewrite Hl, Hd in H. simpl in H.
  rewrite Hb in H. simpl in H.
  destruct (forallb hashable bs); simpl in H; [|discriminate].
  destruct (filter _ (map fst l)) as [|a av]; [left; congruence|].
  destruct sel as [|s sel']; [left; congruence|].
  assert (Hb' : dget_or (dsetdefault r "bindings" (JArr [])) "bindings" (JArr []) = JArr bs).
  { unfold dget_or at 1. rewrite dget_dsetdefault_same. exact Hb. }
  rewrite Hb' in H. injection H as <-. right.
  destruct (append_new_ext bs (s :: sel')) as [ext [Heq Hf]].
  exists ext. split; [|exact Hf]. rewrite <- Heq, <- (dset_dsetdefault r "bindings" (JArr [])).
  exact (layers_of_set_layers st l _ Hl).
Qed.

Lemma filter_all_true {A : Type} (f : A -> bool) (l : list A) :
  (forall x, In x l -> f x = true) -> filter f l = l.
Proof.
  induction l as [|x l IH]; simpl; intros H; [reflexivity|].
  rewrite (H x (or_introl eq_refl)), IH; [reflexivity|]. intros y Hy. apply H. auto.
Qed.

Lemma json_is_str_eq (t : string) (b : json) : json_is_str t b = true -> b = JStr t.
Proof.
  destruct b; simpl; try discriminate. intros E. apply String.eqb_eq in E. subst. reflexivity.
Qed.

Lemma remove_first_nodup (t : string) (bs : list json) :
  NoDup bs -> remove_first t bs = filter (fun b => negb (json_is_str t b)) bs.
Proof.
  induction bs as [|b bs IH]; simpl; intros H; [reflexivity|].
  apply NoDup_cons_iff in H as [Hb H].
  destruct (json_is_str t b) eqn:E; simpl.
  - symmetry. apply filter_all_true. intros x Hx.
    destruct (json_is_str t x) eqn:Ex; [|reflexivity].
    apply json_is_str_eq in E, Ex. subst. contradiction.
  - rewrite IH by exact H. reflexivity.
Qed.

Lemma unbind_each_nodup (sel : list string) (bs : list json) :
  NoDup bs ->
  unbind_each sel (JArr bs)
  = Some (JArr (filter (fun b => negb (existsb (fun t => json_is_str t b) sel)) bs)).
Proof.
  revert bs. induction sel as [|t sel IH]; intros bs H; simpl.
  - rewrite filter_all_true; [reflexivity | reflexivity].
  - destruct (existsb (json_is_str t) bs) eqn:E.
    + rewrite remove_first_nodup by exact H.
      rewrite IH by (apply NoDup_filter, H). rewrite filter_filter_and.
      do 2 f_equal. apply filter_ext. intros b. rewrite negb_orb. apply andb_comm.
    + rewrite IH by exact H. do 2 f_equal. apply filter_ext_in. intros b Hb.
      destruct (json_is_str t b) eqn:Eb; [|reflexivity].
      apply json_is_str_eq in Eb. subst. apply existsb_json_is_str_In in E. contradiction.
Qed.

(** X: on a layer whose bindings have no duplicates, [unbind_layers] removes
    exactly the selected names and keeps the other bindings in order; when
    none is left it deletes the ["bindings"] key. *)
Theorem unbind_layers_exact (source : string) (sel : list string) (st : state)
  (l r : dict) (bs : list json) :
  sel <> [] -> layers_of (manifest st) = Some l -> dget l source = Some (JObj r) ->
  dget r "bindings" = Some (JArr bs) -> NoDup bs ->
  exists st', unbind_layers source sel st = Some st' /\
    layers_of (manifest st') = Some (dset l source (JObj
      (match filter (fun b => negb (existsb (fun t => json_is_str t b) sel)) bs with
       | [] => ddel r "bindings"
       | bs' => dset r "bindings" (JArr bs')
       end))) /\ is_dirty st' = true.
Proof.
  intros Hs Hl Hd Hr Hn. unfold unbind_layers.
  destruct sel as [|s sel']; [congruence|].
  remember (filter (fun b => negb (existsb (fun t => json_is_str t b) (s :: sel'))) bs) as F.
  rewrite Hl, Hd. unfold py_in, dmem. rewrite Hr. cbn [negb].
  rewrite (unbind_each_nodup (s :: sel') bs Hn), <- HeqF. cbv beta iota.
  eexists. split; [reflexivity|]. split; [|reflexivity].
  rewrite (layers_of_set_layers st l _ Hl). do 3 f_equal.
  destruct F; reflexivity.
Qed.

(** *** Migration *)

Lemma forall2_refl {A : Type} (R : A -> A -> Prop) (l : list A) :
  (forall x, R x x) -> Forall2 R l l.
Proof. intros H. induction l; constructor; auto. Qed.

(** A migrated [metadata/] listing: same names in the same order, and a
    file whose name does not end in [.json] keeps its content. *)
Definition same_but_json (md md' : meta_dir) : Prop :=
  Forall2 (fun a b => fst a = fst b /\ (json_glob (fst a) = false -> snd a = snd b)) md md'.

Lemma migrate_files_shape (ev : env) (mmap : dict) (canceled : nat -> bool) (i : nat)
  (md : meta_dir) :
  same_but_json md (fst (migrate_files ev mmap canceled i md)).
Proof.
  unfold same_but_json. revert i. induction md as [|[f c] md IH]; intros i; simpl.
  - constructor.
  - destruct (json_glob f) eqn:Ej; simpl.
    + destruct (canceled i); simpl.
      * apply forall2_refl. auto.
      * destruct (migrate_file ev mmap f c); simpl; (constructor; [|apply IH]);
          simpl; split; try reflexivity; intros E; congruence.
    + constructor; auto.
Qed.

(** X: [run_migration_script], cancelled or not, rewrites only files of
    [metadata/] whose name ends in [.json]: no file is added, removed or
    renamed, other files keep their content, and the manifest, the project
    path and the dirty flag are left as they were. *)
Theorem migration_touches_only_json (ev : env) (canceled : nat -> bool) (st st' : state)
  (c : migration_summary) :
  run_migration_script ev canceled st = Some (st', c) ->
  manifest st' = manifest st /\ project_path st' = project_path st /\
  is_dirty st' = is_dirty st /\ manifest_file st' = manifest_file st /\
  same_but_json (metadata st) (metadata st').
Proof.
  intros H. unfold run_migration_script in H.
  destruct (project_path st) eqn:Hp.
  - destruct (manifest st) eqn:Hm; try discriminate.
    destruct (dget_or _ "layers" _); try discriminate.
    destruct (metadata_to_layer_map [] _) as [mmap|]; [|discriminate].
    destruct (existsb _ (metadata st)); simpl in H; injection H as <- _.
    + repeat split; try assumption. apply migrate_files_shape.
    + repeat split; try assumption. apply forall2_refl. auto.
  - injection H as <- _. repeat split; try assumption. apply forall2_refl. auto.
Qed.

Definition files_counted (c : migration_summary) : nat :=
  (processed_count c + skipped_count c + error_count c)%nat.

Lemma migrate_files_count (ev : env) (mmap : dict) (i : nat) (md : meta_dir) :
  files_counted (snd (migrate_files ev mmap no_cancel i md))
  = List.length (filter json_glob (map fst md)).
Proof.
  revert i. induction md as [|[f c] md IH]; intros i; simpl; [reflexivity|].
  destruct (json_glob f); simpl; [|apply IH].
  unfold no_cancel at 1. specialize (IH (S i)). unfold files_counted in *.
  destruct (migrate_file ev mmap f c); simpl; lia.
Qed.

Lemma filter_none {A : Type} (f : A -> bool) (l : list A) :
  existsb f l = false -> filter f l = [].
Proof.
  induction l as [|x l IH]; simpl; [reflexivity|].
  destruct (f x); simpl; [discriminate|exact IH].
Qed.

(** X: an uncancelled [run_migration_script] counts every file of
    [metadata/] whose name ends in [.json] exactly once, as processed,
    skipped or failed. *)
Theorem migration_counts_every_file (ev : env) (st st' : state) (p : string)
  (c : migration_summary) :
  project_path st = Some p ->
  run_migration_script ev no_cancel st = Some (st', c) ->
  files_counted c = List.length (filter json_glob (map fst (metadata st))).
Proof.
  intros Hp. unfold run_migration_script. rewrite Hp.
  destruct (manifest st); try discriminate.
  destruct (dget_or _ "layers" _); try discriminate.
  destruct (metadata_to_layer_map [] _) as [mmap|]; [|discriminate]. simpl.
  rewrite existsb_glob_names. destruct (existsb json_glob (map fst (metadata st))) eqn:E.
  - simpl. intros H. injection H as _ <-. apply migrate_files_count.
  - intros H. injection H as _ <-. rewrite filter_none by exact E. reflexivity.
Qed.

(** *** Witnesses of the further properties *)

Lemma layer_item_name_roundtrip_witness :
  get_prefix_for_layer ex_layers2 "a.png" = Some "[M]" /\
  get_layer_name_from_item (Some ("[M]" ++ " " ++ "a.png")) = "a.png".
Proof.
  split; [vm_compute; reflexivity|].
  apply (layer_item_name_roundtrip ex_layers2 "a.png" "[M]"). vm_compute. reflexivity.
Defined.

Lemma populate_layer_list_items_witness :
  populate_layer_list ex_state2 false (Some "[X] b.png")
    = Some (["[M] a.png"; "[X] b.png"], Some 1%nat) /\
  let names := map (fun t => get_layer_name_from_item (Some t)) ["[M] a.png"; "[X] b.png"] in
  names = filter (shown ex_layers2 false) (sort_strings (map fst ex_layers2)) /\
  Sorted str_le names /\
  (In (get_layer_name_from_item (Some "[X] b.png")) names ->
   exists i, Some 1%nat = Some i /\
     nth_error names i = Some (get_layer_name_from_item (Some "[X] b.png"))) /\
  (Some 1%nat = None <-> names = []).
Proof.
  split; [vm_compute; reflexivity|].
  apply (populate_layer_list_items ex_state2 [("layers", JObj ex_layers2)] ex_layers2 "proj");
    vm_compute; reflexivity.
Defined.

Lemma update_preview_stacking_witness :
  update_preview ex_env ex_offset_state "base.png" "t.png" = Some ex_offset_ops /\
  map op_img ex_offset_ops = ["base.png"; "t.png"; "x.png"] /\
  Sorted Z.lt (map op_z ex_offset_ops) /\
  Forall (fun op => layer_exists ex_env (op_img op) = true) ex_offset_ops.
Proof.
  split; [vm_compute; reflexivity|]. split; [vm_compute; reflexivity|].
  apply (update_preview_stacking ex_env ex_offset_state "base.png" "t.png").
  vm_compute. reflexivity.
Defined.

Lemma update_preview_positions_witness :
  map op_z ex_offset_ops = [0; 1; 3] /\
  Forall (fun op => (op_z op = 0 /\ op_img op = "base.png" /\ op_x op = (JInt 0, JInt 0) /\
                     op_y op = (JInt 0, JInt 0)) \/
                    (0 < op_z op /\ py_index (JArr [JInt 5; JInt 6]) 0 = Some (fst (op_x op)) /\
                     py_index (JArr [JInt 5; JInt 6]) 1 = Some (fst (op_y op)))) ex_offset_ops.
Proof.
  split; [vm_compute; reflexivity|].
  apply (update_preview_positions ex_env ex_offset_state "base.png" "t.png" ex_offset_layers
           (JArr [JInt 5; JInt 6])); vm_compute; reflexivity.
Defined.

Lemma update_base_offset_preview_witness :
  map op_z ex_offset_moved_ops = [0; 1; 3] /\
  Forall (fun op => 0 < op_z op -> fst (op_x op) = JInt 7 /\ fst (op_y op) = JInt 8)
    ex_offset_moved_ops.
Proof.
  split; [vm_compute; reflexivity|].
  apply (update_base_offset_preview ex_env ex_offset_state ex_offset_moved "base.png" "t.png"
           7 8 ex_offset_layers (JObj ex_offset_base)); vm_compute; reflexivity.
Defined.

Lemma remove_layer_only_that_record_witness :
  exists l', layers_of (manifest (fst (remove_layer (fun _ => true) true "a.png" ex_state2)))
               = Some l' /\ dget l' "a.png" = None /\
    (forall n, n <> "a.png" -> dget l' n = dget ex_layers2 n) /\
    map fst l' = filter (fun n => negb (String.eqb "a.png" n)) (map fst ex_layers2) /\
    is_dirty (fst (remove_layer (fun _ => true) true "a.png" ex_state2)) = true.
Proof.
  apply (remove_layer_only_that_record (fun _ => true) "a.png" ex_state2); vm_compute; reflexivity.
Defined.

Lemma remove_layer_unlink_error_witness :
  exists st', remove_layer (fun _ => false) true "a.png" ex_state2 = (st', true) /\
    layers_of (manifest st') = Some (ddel ex_layers2 "a.png") /\
    is_dirty st' = is_dirty ex_state2.
Proof.
  apply (remove_layer_unlink_error (fun _ => false) "a.png" "proj" ex_state2 ex_layers2);
    reflexivity.
Defined.

Lemma create_then_clear_metadata_witness :
  create_and_assign_metadata ex_env "b.png" ex_state2
    = (fst (create_and_assign_metadata ex_env "b.png" ex_state2), PyRet (Some "b.json")) /\
  exists st2, clear_metadata "b.png" (fst (create_and_assign_metadata ex_env "b.png" ex_state2))
                = Some st2 /\ manifest st2 = manifest ex_state2 /\
    (exists c, meta_lookup (metadata st2) "b.json" = Some (Some c)) /\ is_dirty st2 = true.
Proof.
  split; [vm_compute; reflexivity|].
  apply (create_then_clear_metadata ex_env "b.png" "b.json" ex_state2
           (fst (create_and_assign_metadata ex_env "b.png" ex_state2)) ex_layers2 []);
    vm_compute; reflexivity.
Defined.

Lemma close_event_accepts_witness :
  close_event ex_env RSave (mark_dirty ex_state)
    = (fst (close_event ex_env RSave (mark_dirty ex_state)), PyRet true) /\
  ((is_dirty (mark_dirty ex_state) = false /\
    fst (close_event ex_env RSave (mark_dirty ex_state)) = mark_dirty ex_state) \/
   (RSave = RDiscard /\ fst (close_event ex_env RSave (mark_dirty ex_state)) = mark_dirty ex_state) \/
   (RSave = RSave /\ is_dirty (fst (close_event ex_env RSave (mark_dirty ex_state))) = false /\
    manifest (fst (close_event ex_env RSave (mark_dirty ex_state))) = manifest (mark_dirty ex_state) /\
    manifest_file (fst (close_event ex_env RSave (mark_dirty ex_state)))
      = Some (manifest (mark_dirty ex_state)))).
Proof.
  split; [vm_compute; reflexivity|].
  apply (close_event_accepts ex_env RSave (mark_dirty ex_state)). vm_compute. reflexivity.
Defined.

Lemma new_project_fresh_witness :
  exists st', new_project ex_env RDiscard "newproj" true (mark_dirty ex_state) = (st', PyRet tt) /\
    project_path st' = Some "newproj" /\ manifest st' = JObj [("layers", JObj [])] /\
    is_dirty st' = false /\ metadata st' = [] /\ manifest_file st' = Some (manifest st').
Proof.
  apply (new_project_fresh ex_env RDiscard "newproj" (mark_dirty ex_state)).
  - right. reflexivity.
  - reflexivity.
  - discriminate.
Defined.

Lemma save_then_load_roundtrip_witness :
  exists st2, load_project (Some (manifest_file (fst (save_project ex_env (mark_dirty ex_state2)))))
                true (metadata (mark_dirty ex_state2)) "proj"
                (fst (save_project ex_env (mark_dirty ex_state2))) = (st2, false) /\
    manifest st2 = manifest (mark_dirty ex_state2) /\ is_dirty st2 = false /\
    project_path st2 = Some "proj" /\ metadata st2 = metadata (mark_dirty ex_state2).
Proof.
  apply (save_then_load_roundtrip ex_env (mark_dirty ex_state2)
           (fst (save_project ex_env (mark_dirty ex_state2))) "proj" [("layers", JObj ex_layers2)]);
    vm_compute; reflexivity.
Defined.

Lemma save_metadata_editor_roundtrip_witness :
  exists st', save_metadata_from_editor ex_env "a.png" (Some (JObj [])) ex_state = Some st' /\
    load_metadata_json_for_layer st' "a.png" = Some (Some (JObj [])) /\
    manifest st' = manifest ex_state /\ is_dirty st' = true.
Proof.
  apply (save_metadata_editor_roundtrip ex_env ex_state "a.png" "a.json" "proj" (JObj [])
           [("a.png", JObj [("metadata", JStr "a.json")])] [("metadata", JStr "a.json")]);
    first [discriminate | reflexivity].
Defined.

Lemma save_metadata_editor_invalid_witness :
  save_metadata_from_editor ex_env "a.png" None ex_state = Some ex_state /\ ex_state = ex_state.
Proof.
  split; [vm_compute; reflexivity|].
  apply (save_metadata_editor_invalid ex_env "a.png"). vm_compute. reflexivity.
Defined.

Lemma populate_combo_boxes_partition_witness :
  ex_combo = ((["<None>"; "base.png"], "base.png"),
              (["<None>"; "p.png"; "q.png"; "top.png"; "x.png"; "y.png"], "<None>")) /\
  exists bs ts, fst (fst ex_combo) = "<None>" :: bs /\ fst (snd ex_combo) = "<None>" :: ts /\
    Permutation (bs ++ ts)%list (map fst ex_preview_layers) /\ Sorted str_le bs /\
    Sorted str_le ts /\
    (forall n, In n bs -> exists v, In (n, v) ex_preview_layers /\ layer_is_base v = true) /\
    (forall n, In n ts -> exists v, In (n, v) ex_preview_layers /\ layer_is_base v = false) /\
    (In "base.png" (fst (fst ex_combo)) -> snd (fst ex_combo) = "base.png") /\
    (~ In "base.png" (fst (fst ex_combo)) -> snd (fst ex_combo) = "<None>") /\
    (In "gone.png" (fst (snd ex_combo)) -> snd (snd ex_combo) = "gone.png") /\
    (~ In "gone.png" (fst (snd ex_combo)) -> snd (snd ex_combo) = "<None>").
Proof.
  split; [vm_compute; reflexivity|].
  apply (populate_combo_boxes_partition ex_preview_state [("layers", JObj ex_preview_layers)]
           ex_preview_layers "base.png" "gone.png"); vm_compute; reflexivity.
Defined.

Lemma import_metadata_report_witness :
  exists st', import_metadata ex_env (fun _ => true) (fun _ => Some (JObj []))
                ["/tmp/a.json"; "/tmp/zzz.json"] ex_state2
    = (st', PyRet (Some (List.length (filter (import_match (map fst ex_layers2))
                                        ["/tmp/a.json"; "/tmp/zzz.json"]),
                         map path_name (filter (fun p => negb (import_match (map fst ex_layers2) p))
                                           ["/tmp/a.json"; "/tmp/zzz.json"])))) /\
    (exists l', layers_of (manifest st') = Some l' /\ map fst l' = map fst ex_layers2) /\
    is_dirty st' = is_dirty ex_state2 ||
                   existsb (import_match (map fst ex_layers2)) ["/tmp/a.json"; "/tmp/zzz.json"].
Proof.
  apply (import_metadata_report ex_env (fun _ => true) (fun _ => Some (JObj []))
           ["/tmp/a.json"; "/tmp/zzz.json"] ex_state2 ex_layers2 "proj").
  - reflexivity.
  - reflexivity.
  - reflexivity.
  - intros k v Hk. simpl in Hk.
    destruct (String.eqb k "a.png"); [injection Hk as <-; eexists; reflexivity|].
    destruct (String.eqb k "b.png"); [injection Hk as <-; eexists; reflexivity|discriminate].
  - discriminate.
  - intros p _. reflexivity.
Defined.

Lemma import_metadata_assigns_last_witness :
  exists st', import_metadata ex_env (fun _ => true) (fun _ => Some (JObj [])) ["/tmp/b.json"]
                ex_state2 = (st', PyRet (Some (1%nat, []))) /\
    layers_of (manifest st') = Some (dset ex_layers2 "b.png"
                                       (JObj (dset [] "metadata" (JStr (path_name "/tmp/b.json"))))) /\
    meta_lookup (metadata st') (path_name "/tmp/b.json") = Some (Some (JObj [])) /\
    is_dirty st' = true.
Proof.
  apply (import_metadata_assigns_last ex_env (fun _ => true) (fun _ => Some (JObj []))
           "/tmp/b.json" "proj" "b.png" ex_state2 ex_layers2 []); vm_compute; reflexivity.
Defined.

Lemma bind_layers_appends_witness :
  bind_layers "a.png" ["b.png"] ex_state2 <> Some ex_state2 /\
  (match bind_layers "a.png" ["b.png"] ex_state2 with Some st' => st' | None => ex_state2 end
     = ex_state2 \/
   exists ext,
     layers_of (manifest (match bind_layers "a.png" ["b.png"] ex_state2 with
                          | Some st' => st' | None => ex_state2 end)) =
       Some (dset ex_layers2 "a.png"
               (JObj (dset [("metadata", JStr "a.json")] "bindings" (JArr ([] ++ ext)%list)))) /\
     Forall (fun x => exists n, In n ["b.png"] /\ x = JStr n /\ ~ In x []) ext).
Proof.
  split; [vm_compute; discriminate|].
  apply (bind_layers_appends "a.png" ["b.png"] ex_state2
           (match bind_layers "a.png" ["b.png"] ex_state2 with
            | Some st' => st' | None => ex_state2 end)
           ex_layers2 [("metadata", JStr "a.json")] []); vm_compute; reflexivity.
Defined.

Lemma unbind_layers_exact_witness :
  exists st', unbind_layers "base.png" ["x.png"] ex_preview_state = Some st' /\
    layers_of (manifest st') = Some (dset ex_preview_layers "base.png" (JObj
      (match filter (fun b => negb (existsb (fun t => json_is_str t b) ["x.png"]))
               [JStr "x.png"; JStr "y.png"] with
       | [] => ddel ex_preview_base "bindings"
       | bs' => dset ex_preview_base "bindings" (JArr bs')
       end))) /\ is_dirty st' = true.
Proof.
  apply (unbind_layers_exact "base.png" ["x.png"] ex_preview_state ex_preview_layers
           ex_preview_base [JStr "x.png"; JStr "y.png"]).
  - discriminate.
  - reflexivity.
  - reflexivity.
  - reflexivity.
  - apply NoDup_cons; [intros [H | []]; discriminate|].
    apply NoDup_cons; [intros [] | apply NoDup_nil].
Defined.

Lemma migration_touches_only_json_witness :
  exists st' c, run_migration_script ex_env no_cancel ex_migr_state = Some (st', c) /\
    processed_count c = 1%nat /\
    manifest st' = manifest ex_migr_state /\ project_path st' = project_path ex_migr_state /\
    is_dirty st' = is_dirty ex_migr_state /\ manifest_file st' = manifest_file ex_migr_state /\
    same_but_json (metadata ex_migr_state) (metadata st').
Proof.
  do 2 eexists. split; [reflexivity|]. split; [reflexivity|].
  eapply (migration_touches_only_json ex_env no_cancel ex_migr_state). reflexivity.
Defined.

Lemma migration_counts_every_file_witness :
  exists st' c, run_migration_script ex_env no_cancel ex_migr_state = Some (st', c) /\
    files_counted c = 2%nat /\
    files_counted c = List.length (filter json_glob (map fst (metadata ex_migr_state))).
Proof.
  do 2 eexists. split; [reflexivity|]. split; [reflexivity|].
  eapply (migration_counts_every_file ex_env ex_migr_state _ "proj"); reflexivity.
Defined.
